(** * gplus-auth: the authentication gateway, embedded and verified

    The repository wires the goth OAuth providers to a chi router and an
    scs session, and layers an email allow-list on top.  This file embeds
    the Go code of [login.go] (the gothic-derived flow: [setState],
    [getAuthURL], [completeUserAuth], [validateState], [logout], the
    gzip-compressed session adapter) and of the access-policy file
    ([GetRouter], [GetAccess], [getAccessByEmail], [CheckAccess],
    [GuardAccess], [gateway]).

    Conventions of the embedding:
    - a Go [string] is a [string] (a sequence of bytes), a [[]byte] is a
      [list byte]; the conversions [[]byte(s)] and [string(b)] are
      [list_byte_of_string] and [string_of_list_byte];
    - a Go [error] is the text of its [Error()] ([nil] is [None]); a
      [(T, error)] result is a [Result T];
    - the response writer, the session, the loggers and the random source
      are mutated in place by the Go code: they are the fields of a
      [World] threaded through a state monad;
    - every call into goth or scs is also recorded, in order, in the
      ghost field [calls], so that "first", "then" and "exactly once" can
      be stated. *)

From Stdlib Require Import ZArith List Ascii String Strings.Byte.
From stdpp Require Import base option gmap strings list.

Import ListNotations.
Local Open Scope string_scope.
Local Open Scope Z_scope.
Local Open Scope list_scope.

(** ** Go results *)

Definition error := string.

Inductive Result (A : Type) : Type :=
| Ok (a : A)
| Err (e : error).

Arguments Ok {A} a.
Arguments Err {A} e.

(** ** net/url: query values *)

Module url.

(** [url.Values] is a [map[string][]string]. *)
Abbreviation Values := (gmap string (list string)).

(** [func (v Values) Get(key string) string]: the first value of [key],
    the empty string when there is none. *)
Definition Get (v : Values) (key : string) : string :=
  match v !! key with
  | Some (x :: _) => x
  | _ => ""
  end.

(** A parsed URL; [Query] is what [u.Query()] returns. *)
Record URL : Type := { Raw : string; Query : Values }.

End url.

(** ** net/http: the response writer *)

Module http.

Definition StatusBadRequest : Z := 400.
Definition StatusTemporaryRedirect : Z := 307.

(** The state of a [http.ResponseWriter]: the header map, the status
    line once it has been written, and the bytes of the body. *)
Record Response : Type := {
  Header : gmap string (list string);
  status : option Z;
  body : string
}.

Definition fresh : Response :=
  {| Header := ∅; status := None; body := "" |}.

(** [res.Header().Set(key, value)] *)
Definition Header_Set (key value : string) (r : Response) : Response :=
  {| Header := <[key := [value]]> (Header r); status := status r; body := body r |}.

(** [res.WriteHeader(code)]: only the first call writes the status line. *)
Definition WriteHeader (code : Z) (r : Response) : Response :=
  match status r with
  | Some _ => r
  | None => {| Header := Header r; status := Some code; body := body r |}
  end.

(** [res.Write(p)]: writes the status line 200 when none was written. *)
Definition Write (p : string) (r : Response) : Response :=
  let r' := WriteHeader 200 r in
  {| Header := Header r'; status := status r'; body := body r' +:+ p |}.

Record Request : Type := {
  (** [req.URL] *)
  URL : url.URL;
  (** the route parameters chi stored in the request context *)
  RouteParams : gmap string string
}.

End http.

(** ** go-chi *)

Module chi.

(** [chi.URLParam(req, key)]: the route parameter, or the empty string. *)
Definition URLParam (req : http.Request) (key : string) : string :=
  default "" (http.RouteParams req !! key).

End chi.

(** ** alexedwards/scs: the session of the current request

    The session is an external collaborator.  It is modelled as the
    key/value data of the browser session the request belongs to,
    together with the two ways in which every scs operation can fail:
    the session could not be loaded ([loadErr], sticky), or the modified
    session could not be written back ([writeErr]); a failed write leaves
    the stored data as it was.  The cookie scs adds to the response is
    not modelled. *)

Module scs.

Inductive Value : Type :=
| VBytes (b : list byte)
| VString (s : string).

Record Session : Type := {
  data : gmap string Value;
  loadErr : option error;
  writeErr : option error
}.

Definition ErrTypeAssertionFailed : error := "type assertion failed".

Definition with_data (d : gmap string Value) (s : Session) : Session :=
  {| data := d; loadErr := loadErr s; writeErr := writeErr s |}.

(** [session.GetBytes(key)]: [nil] for a missing key. *)
Definition GetBytes (s : Session) (key : string) : Result (list byte) :=
  match loadErr s with
  | Some e => Err e
  | None =>
      match data s !! key with
      | None => Ok []
      | Some (VBytes b) => Ok b
      | Some (VString _) => Err ErrTypeAssertionFailed
      end
  end.

(** [session.GetString(key)]: the empty string for a missing key. *)
Definition GetString (s : Session) (key : string) : Result string :=
  match loadErr s with
  | Some e => Err e
  | None =>
      match data s !! key with
      | None => Ok ""
      | Some (VString v) => Ok v
      | Some (VBytes _) => Err ErrTypeAssertionFailed
      end
  end.

Definition put (s : Session) (key : string) (v : Value) : Session * option error :=
  match loadErr s with
  | Some e => (s, Some e)
  | None =>
      match writeErr s with
      | Some e => (s, Some e)
      | None => (with_data (<[key := v]> (data s)) s, None)
      end
  end.

(** [session.PutBytes(w, key, val)] *)
Definition PutBytes (s : Session) (key : string) (val : list byte) : Session * option error :=
  put s key (VBytes val).

(** [session.PutString(w, key, val)] *)
Definition PutString (s : Session) (key : string) (val : string) : Session * option error :=
  put s key (VString val).

(** [session.Remove(w, key)]: nothing is written when the key is absent. *)
Definition Remove (s : Session) (key : string) : Session * option error :=
  match loadErr s with
  | Some e => (s, Some e)
  | None =>
      match data s !! key with
      | None => (s, None)
      | Some _ =>
          match writeErr s with
          | Some e => (s, Some e)
          | None => (with_data (delete key (data s)) s, None)
          end
      end
  end.

End scs.

(** ** markbates/goth: users, sessions, providers

    Providers are external collaborators: a provider is the record of the
    operations of the [goth.Provider] interface, over the type [Sess] of
    its sessions; the [goth.Session] interface is the class
    [goth.Session].  [Authorize] has a pointer receiver and stores the
    token in the session: it returns the session it leaves behind. *)

Module goth.

Record User : Type := { Email : string; UserID : string }.

(** [goth.User{}] *)
Definition User_zero : User := {| Email := ""; UserID := "" |}.

Record Provider (Sess : Type) : Type := {
  Name : string;
  BeginAuth : string -> Result Sess;
  UnmarshalSession : string -> Result Sess;
  FetchUser : Sess -> Result User
}.

Arguments Name {Sess} _.
Arguments BeginAuth {Sess} _ _.
Arguments UnmarshalSession {Sess} _ _.
Arguments FetchUser {Sess} _ _.

Class Session (Sess : Type) : Type := {
  GetAuthURL : Sess -> Result string;
  Marshal : Sess -> string;
  Authorize : Sess -> Provider Sess -> url.Values -> Result string * Sess
}.

(** [goth.GetProvider(name)] over the registry filled by
    [goth.UseProviders]. *)
Definition GetProvider {Sess} (providers : gmap string (Provider Sess))
    (name : string) : Result (Provider Sess) :=
  match providers !! name with
  | Some p => Ok p
  | None => Err ("no provider for " +:+ name +:+ " exists")
  end.

End goth.

(** ** The world a handler runs in *)

(** The calls into goth and scs, as the ghost trace records them. *)
Inductive Call : Type :=
| CallGetProvider (name : string)
| CallBeginAuth (state : string)
| CallUnmarshalSession (value : string)
| CallFetchUser
| CallAuthorize (params : url.Values)
| CallGetBytes (key : string)
| CallPutBytes (key : string) (val : list byte)
| CallPutString (key val : string)
| CallRemove (key : string).

Record World : Type := {
  (** the session [store.Load(req)] gives for the current request *)
  session : scs.Session;
  (** the response writer [res] *)
  resp : http.Response;
  (** what the loggers printed, oldest first *)
  logs : list string;
  (** [gothicRand]: the values [Int63] is going to return, and how many
      were drawn *)
  rand_src : nat -> Z;
  rand_pos : nat;
  (** ghost: the external calls made so far, oldest first *)
  calls : list Call
}.

Definition set_session (s : scs.Session) (w : World) : World :=
  {| session := s; resp := resp w; logs := logs w;
     rand_src := rand_src w; rand_pos := rand_pos w; calls := calls w |}.

Definition set_resp (r : http.Response) (w : World) : World :=
  {| session := session w; resp := r; logs := logs w;
     rand_src := rand_src w; rand_pos := rand_pos w; calls := calls w |}.

Definition add_log (l : string) (w : World) : World :=
  {| session := session w; resp := resp w; logs := logs w ++ [l];
     rand_src := rand_src w; rand_pos := rand_pos w; calls := calls w |}.

Definition add_call (c : Call) (w : World) : World :=
  {| session := session w; resp := resp w; logs := logs w;
     rand_src := rand_src w; rand_pos := rand_pos w; calls := calls w ++ [c] |}.

Definition draw (w : World) : World :=
  {| session := session w; resp := resp w; logs := logs w;
     rand_src := rand_src w; rand_pos := S (rand_pos w); calls := calls w |}.

(** The world once a flow has resolved the provider [name], loaded its
    blob and unmarshalled [value]. *)
Definition loaded (name value : string) (w : World) : World :=
  add_call (CallUnmarshalSession value)
    (add_call (CallGetBytes name) (add_call (CallGetProvider name) w)).

Definition is_Remove (c : Call) : bool :=
  match c with CallRemove _ => true | _ => false end.

(** The state monad of handlers. *)
Definition M (A : Type) : Type := World -> A * World.

Definition ret {A} (a : A) : M A := fun w => (a, w).

Definition bind {A B} (m : M A) (k : A -> M B) : M B :=
  fun w => let aw := m w in k (fst aw) (snd aw).

Definition modify (f : World -> World) : M unit := fun w => (tt, f w).

Declare Scope go_scope.
Delimit Scope go_scope with go.

Notation "x <- m ;; k" := (bind m (fun x => k))
  (at level 100, m at next level, right associativity) : go_scope.
Notation "m ;;; k" := (bind m (fun _ => k))
  (at level 100, right associativity) : go_scope.
(** [x, err := m; if err != nil { return ..., err }] *)
Notation "'try' x <- m ;; k" :=
  (bind m (fun r => match r with
                    | Ok x => k
                    | Err e => ret (Err e)
                    end))
  (at level 100, x name, m at next level, right associativity) : go_scope.

Local Open Scope go_scope.

(** [defer d] at the head of a function whose body is [m]: the body runs
    and fixes the results, then [d] runs, whatever the exit. *)
Definition defer {A B} (d : M B) (m : M A) : M A :=
  r <- m ;; d ;;; ret r.

Definition modify_resp (f : http.Response -> http.Response) : M unit :=
  modify (fun w => set_resp (f (resp w)) w).

(** [log.Print], [log.Printf], [log.Error]: one line per call. *)
Definition log_Print (l : string) : M unit := modify (add_log l).

Definition trace (c : Call) : M unit := modify (add_call c).

(** ** compress/gzip

    The codec is an external collaborator: a writer over a
    [bytes.Buffer] with the three operations the adapter calls, and the
    reader with its two points of failure ([gzip.NewReader] checks the
    header, [ioutil.ReadAll] inflates and checks the trailer). *)

Module gzip.

Class Codec : Type := {
  Writer : Type;
  Reader : Type;
  (** [gzip.NewWriter(&b)] for an empty buffer [b] *)
  NewWriter : Writer;
  Write : Writer -> list byte -> Writer * option error;
  Flush : Writer -> Writer * option error;
  Close : Writer -> Writer * option error;
  (** [b.Bytes()] for the buffer under the writer *)
  Bytes : Writer -> list byte;
  NewReader : list byte -> Result Reader;
  ReadAll : Reader -> Result (list byte)
}.

(** What compress/gzip promises: a stream that was written, flushed and
    closed without error reads back as the bytes written. *)
Class Lossless (C : Codec) : Prop :=
  read_written : forall p w1 w2 w3,
    Write NewWriter p = (w1, None) ->
    Flush w1 = (w2, None) ->
    Close w2 = (w3, None) ->
    exists r, NewReader (Bytes w3) = Ok r /\ ReadAll r = Ok p.

End gzip.

(** ** encoding/base64: [base64.URLEncoding.EncodeToString] *)

Module base64.

Definition encodeURL : string :=
  "ABCDEFGHIJKLMNOPQRSTUVWXYZabcdefghijklmnopqrstuvwxyz0123456789-_".

Definition StdPadding : ascii := "="%char.

(** [enc.encode[v & 0x3F]] *)
Definition enc (v : Z) : ascii :=
  default StdPadding (String.get (Z.to_nat (Z.land v 63)) encodeURL).

Definition uint (b : byte) : Z := Z.of_N (Byte.to_N b).

Fixpoint EncodeToString (src : list byte) : string :=
  match src with
  | [] => ""
  | [a] =>
      let val := Z.shiftl (uint a) 16 in
      String (enc (Z.shiftr val 18)) (String (enc (Z.shiftr val 12))
        (String StdPadding (String StdPadding "")))
  | [a; b] =>
      let val := Z.lor (Z.shiftl (uint a) 16) (Z.shiftl (uint b) 8) in
      String (enc (Z.shiftr val 18)) (String (enc (Z.shiftr val 12))
        (String (enc (Z.shiftr val 6)) (String StdPadding "")))
  | a :: b :: c :: rest =>
      let val := Z.lor (Z.lor (Z.shiftl (uint a) 16) (Z.shiftl (uint b) 8)) (uint c) in
      String (enc (Z.shiftr val 18)) (String (enc (Z.shiftr val 12))
        (String (enc (Z.shiftr val 6)) (String (enc val)
          (EncodeToString rest))))
  end.

End base64.

(** [byte(v)] for an [int64] [v]: the low eight bits. *)
Definition byte_of_Z (v : Z) : byte :=
  default x00 (Byte.of_N (Z.to_N (v mod 256))).

Definition LF : string := String (ascii_of_nat 10) "".

(** ** What else the package links against *)

Class Linked (Sess : Type) : Type := {
  (** the registry [goth.UseProviders] filled *)
  providers : gmap string (goth.Provider Sess);
  (** [url.Parse] *)
  url_Parse : string -> Result url.URL;
  (** [http.Redirect(w, r, url, code)], as a change of the response *)
  http_Redirect : http.Request -> string -> Z -> http.Response -> http.Response
}.

(** ** package auth: the flow of login.go *)

Section auth.

Context {Sess : Type} {goth_session : goth.Session Sess}
  {codec : gzip.Codec} {linked : Linked Sess}.

(** *** The calls that leave the package, with their trace *)

Definition goth_GetProvider (name : string) : M (Result (goth.Provider Sess)) :=
  trace (CallGetProvider name) ;;; ret (goth.GetProvider providers name).

Definition provider_BeginAuth (p : goth.Provider Sess) (state : string)
    : M (Result Sess) :=
  trace (CallBeginAuth state) ;;; ret (goth.BeginAuth p state).

Definition provider_UnmarshalSession (p : goth.Provider Sess) (value : string)
    : M (Result Sess) :=
  trace (CallUnmarshalSession value) ;;; ret (goth.UnmarshalSession p value).

Definition provider_FetchUser (p : goth.Provider Sess) (sess : Sess)
    : M (Result goth.User) :=
  trace CallFetchUser ;;; ret (goth.FetchUser p sess).

Definition sess_Authorize (sess : Sess) (p : goth.Provider Sess)
    (params : url.Values) : M (Result string * Sess) :=
  trace (CallAuthorize params) ;;; ret (goth.Authorize sess p params).

(** The writes below are [session.PutBytes(w, key, val)],
    [session.PutString(w, key, val)] and [session.Remove(w, key)].  Each
    is handed the response writer, on which scs sets the session cookie
    when it rewrites the session; that [Set-Cookie] header is left out of
    the model, which follows what these calls do to the session, the
    status line and the body (scs writes neither of the last two). *)

Definition session_GetBytes (key : string) : M (Result (list byte)) :=
  fun w => (scs.GetBytes (session w) key, add_call (CallGetBytes key) w).

Definition session_PutBytes (key : string) (val : list byte) : M (option error) :=
  fun w =>
    let r := scs.PutBytes (session w) key val in
    (snd r, add_call (CallPutBytes key val) (set_session (fst r) w)).

Definition session_PutString (key val : string) : M (option error) :=
  fun w =>
    let r := scs.PutString (session w) key val in
    (snd r, add_call (CallPutString key val) (set_session (fst r) w)).

Definition session_Remove (key : string) : M (option error) :=
  fun w =>
    let r := scs.Remove (session w) key in
    (snd r, add_call (CallRemove key) (set_session (fst r) w)).

(** [gothicRand.Int63()] *)
Definition Int63 : M Z :=
  fun w => (rand_src w (rand_pos w) mod 2 ^ 63, draw w).

(** *** login.go *)

(** [for i := 0; i < n; i++ { nonceBytes[i] = byte(gothicRand.Int63() % 256) }] *)
Fixpoint nonceBytes (n : nat) : M (list byte) :=
  match n with
  | O => ret []
  | S n' =>
      v <- Int63 ;;
      rest <- nonceBytes n' ;;
      ret (byte_of_Z (Z.rem v 256) :: rest)
  end.

Definition setState (req : http.Request) : M string :=
  let state := url.Get (url.Query (http.URL req)) "state" in
  if (0 <? String.length state)%nat then ret state
  else
    nonce <- nonceBytes 64 ;;
    ret (base64.EncodeToString nonce).

Definition getState (req : http.Request) : string :=
  url.Get (url.Query (http.URL req)) "state".

Definition getProviderName (req : http.Request) : Result string :=
  let p := chi.URLParam req "provider" in
  if bool_decide (p <> "") then Ok p
  else Err "you must select a provider".

Definition updateSessionValue (key value : string) : M (option error) :=
  let gz := gzip.NewWriter in
  match gzip.Write gz (list_byte_of_string value) with
  | (_, Some err) => ret (Some err)
  | (gz, None) =>
      match gzip.Flush gz with
      | (_, Some err) => ret (Some err)
      | (gz, None) =>
          match gzip.Close gz with
          | (_, Some err) => ret (Some err)
          | (gz, None) => session_PutBytes key (gzip.Bytes gz)
          end
      end
  end.

(** The bytes [updateSessionValue] hands to [PutBytes] when the writer
    reported no error. *)
Definition compressed (value : string) : list byte :=
  gzip.Bytes
    (fst (gzip.Close
       (fst (gzip.Flush
          (fst (gzip.Write gzip.NewWriter (list_byte_of_string value))))))).

Definition getSessionValue (key : string) : M (Result string) :=
  r <- session_GetBytes key ;;
  match r with
  | Err _ => ret (Err "could not find a matching session for this request")
  | Ok value =>
      let rdata := string_of_list_byte value in
      match gzip.NewReader (list_byte_of_string rdata) with
      | Err err => ret (Err err)
      | Ok r =>
          match gzip.ReadAll r with
          | Err err => ret (Err err)
          | Ok s => ret (Ok (string_of_list_byte s))
          end
      end
  end.

Definition storeInSession (key value : string) (req : http.Request)
    : M (option error) :=
  updateSessionValue key value.

Definition getFromSession (key : string) (req : http.Request)
    : M (Result string) :=
  r <- getSessionValue key ;;
  match r with
  | Err err =>
      log_Print err ;;;
      ret (Err "could not find a matching session for this request")
  | Ok value => ret (Ok value)
  end.

Definition logout (req : http.Request) : M (option error) :=
  match getProviderName req with
  | Err _ => ret (Some "Can't detect provider")
  | Ok name =>
      err <- session_Remove name ;;
      match err with
      | Some _ => ret (Some "Could not delete user session ")
      | None => ret None
      end
  end.

Definition validateState (req : http.Request) (sess : Sess) : option error :=
  match goth.GetAuthURL sess with
  | Err err => Some err
  | Ok rawAuthURL =>
      match url_Parse rawAuthURL with
      | Err err => Some err
      | Ok authURL =>
          let originalState := url.Get (url.Query authURL) "state" in
          if bool_decide (originalState <> "")
             && bool_decide (originalState <> url.Get (url.Query (http.URL req)) "state")
          then Some "state token mismatch"
          else None
      end
  end.

Definition getAuthURL (req : http.Request) : M (Result string) :=
  try providerName <- ret (getProviderName req) ;;
  try provider <- goth_GetProvider providerName ;;
  state <- setState req ;;
  try sess <- provider_BeginAuth provider state ;;
  try url <- ret (goth.GetAuthURL sess) ;;
  err <- storeInSession providerName (goth.Marshal sess) req ;;
  match err with
  | Some err => ret (Err err)
  | None => ret (Ok url)
  end.

Definition beginAuthHandler (req : http.Request) : M unit :=
  r <- getAuthURL req ;;
  match r with
  | Err err =>
      modify_resp (http.WriteHeader http.StatusBadRequest) ;;;
      modify_resp (http.Write (err +:+ LF))
  | Ok url =>
      modify_resp (http_Redirect req url http.StatusTemporaryRedirect)
  end.

(** The body of [completeUserAuth], below its [defer]. *)
Definition completeUserAuth_body (req : http.Request) : M (Result goth.User) :=
  try providerName <- ret (getProviderName req) ;;
  try provider <- goth_GetProvider providerName ;;
  try value <- getFromSession providerName req ;;
  try sess <- provider_UnmarshalSession provider value ;;
  match validateState req sess with
  | Some err => ret (Err err)
  | None =>
      r <- provider_FetchUser provider sess ;;
      match r with
      | Ok user => ret (Ok user)
      | Err _ =>
          a <- sess_Authorize sess provider (url.Query (http.URL req)) ;;
          let sess := snd a in
          match fst a with
          | Err err => ret (Err err)
          | Ok _ =>
              err <- storeInSession providerName (goth.Marshal sess) req ;;
              match err with
              | Some err => ret (Err err)
              | None => provider_FetchUser provider sess
              end
          end
      end
  end.

Definition completeUserAuth (req : http.Request) : M (Result goth.User) :=
  defer (logout req) (completeUserAuth_body req).

(** *** The access policy and the router *)

(** [type AccessType int], with the two constants declared by [iota]. *)
Inductive AccessType : Type :=
| NoneAccess
| AdminAccess.

#[global] Instance AccessType_eq_dec : EqDecision AccessType.
Proof. solve_decision. Defined.

Record UserInfo : Type := {
  Access : AccessType;
  Email : string
}.

Definition codes : gmap string AccessType := {[ "admin" := AdminAccess ]}.

(** [UnmarshalYAML]: [temp] is what [unmarshal(&temp)] filled, as
    (email, access). *)
Definition UnmarshalYAML (unmarshal : Result (string * string)) : Result UserInfo :=
  match unmarshal with
  | Err err => Err err
  | Ok (temp_Email, temp_Access) =>
      match codes !! temp_Access with
      | Some a => Ok {| Access := a; Email := temp_Email |}
      | None => Ok {| Access := NoneAccess; Email := temp_Email |}
      end
  end.

(** The [Provider] struct.  Its [Session] field and the package variable
    [store] are the same manager ([NewProvider] sets both): the session
    either loads for the request is [session] of the world. *)
Record Provider : Type := {
  DeniedPage : string;
  SuccessPage : string;
  DefaultProvider : string;
  UserList : list UserInfo
}.

(** [Config]: the credentials [NewProvider] hands to [gplus.New]. *)
Record Config : Type := {
  Key : string;
  Secret : string;
  Callback : string
}.

(** [NewProvider]; the provider it registers with goth is the one of the
    registry in [Linked]. *)
Definition NewProvider (cfg : Config) (users : list UserInfo) : Provider :=
  {| DeniedPage := "/auth-denied";
     SuccessPage := "/";
     DefaultProvider := "gplus";
     UserList := users |}.

Definition redirect (url : string) : M unit :=
  modify_resp (http.Header_Set "Location" url) ;;;
  modify_resp (http.WriteHeader http.StatusTemporaryRedirect).

(** [for _, el := range t.UserList { if el.Email == email { return el.Access } }] *)
Fixpoint getAccessByEmail_loop (l : list UserInfo) (email : string) : AccessType :=
  match l with
  | [] => NoneAccess
  | el :: rest =>
      if bool_decide (Email el = email) then Access el
      else getAccessByEmail_loop rest email
  end.

Definition getAccessByEmail (t : Provider) (email : string) : AccessType :=
  getAccessByEmail_loop (UserList t) email.

Definition GetAccess (t : Provider) (req : http.Request) (w : World) : AccessType :=
  match scs.GetString (session w) "email" with
  | Err _ => NoneAccess
  | Ok email =>
      if bool_decide (email = "") then NoneAccess
      else getAccessByEmail t email
  end.

(** [for _, el := range types { if el == access { return true } }] *)
Fixpoint CheckAccess_loop (access : AccessType) (types : list AccessType) : bool :=
  match types with
  | [] => false
  | el :: rest =>
      if bool_decide (el = access) then true
      else CheckAccess_loop access rest
  end.

Definition CheckAccess (t : Provider) (req : http.Request)
    (types : list AccessType) (w : World) : bool :=
  let access := GetAccess t req w in
  CheckAccess_loop access types.

Definition gateway (t : Provider) (req : http.Request) (email : string) : M unit :=
  let access := getAccessByEmail t email in
  if bool_decide (access = NoneAccess) then redirect (DeniedPage t)
  else
    err <- session_PutString "email" email ;;
    match err with
    | Some _ =>
        log_Print "Can't save auth info into session" ;;;
        redirect (DeniedPage t)
    | None => redirect (SuccessPage t)
    end.

(** The three handlers [GetRouter] registers. *)
Definition callbackRoute (t : Provider) (req : http.Request) : M unit :=
  r <- completeUserAuth req ;;
  match r with
  | Err err => log_Print ("Can't complete user's authentication, " +:+ err)
  | Ok user => gateway t req (goth.Email user)
  end.

Definition loginRoute (t : Provider) (req : http.Request) : M unit :=
  r <- completeUserAuth req ;;
  match r with
  | Ok user => gateway t req (goth.Email user)
  | Err _ => beginAuthHandler req
  end.

Definition logoutRoute (t : Provider) (req : http.Request) : M unit :=
  logout req ;;;
  redirect (SuccessPage t).

Definition GetRouter (t : Provider) : list (string * (http.Request -> M unit)) :=
  [ ("/{provider}/callback", callbackRoute t);
    ("/{provider}/login", loginRoute t);
    ("/{provider}/logout", logoutRoute t) ].

Definition GuardAccess (t : Provider) (types : list AccessType)
    (next : http.Request -> M unit) (r : http.Request) : M unit :=
  fun w =>
    if negb (CheckAccess t r types w)
    then modify_resp (http_Redirect r (DeniedPage t) http.StatusTemporaryRedirect) w
    else next r w.

End auth.

(** ** package login: [SetProvider]

    The stand-alone variant registers the same three routes for one
    provider whose name is passed along, and asks a caller-supplied
    [Handler] where to go after login and logout. *)

Module login.

(** The [Handler] interface; a hook gets the response writer too, so it
    runs in the world. *)
Class Handler : Type := {
  Login : http.Request -> string -> M string;
  Logout : http.Request -> M string
}.

Section login.

Context {Sess : Type} {handler : Handler}.

(** [completeUserAuth], [beginAuthHandler] and [logout] with the provider
    name as third argument are called here but are not part of the
    sources at hand: they are parameters. *)
Variable completeUserAuth : http.Request -> string -> M (Result goth.User).
Variable beginAuthHandler : http.Request -> string -> M unit.
Variable logout : http.Request -> string -> M (option error).

Definition redirect (url : string) : M unit :=
  modify_resp (http.Header_Set "Location" url) ;;;
  modify_resp (http.WriteHeader http.StatusTemporaryRedirect).

Definition callbackRoute (name : string) (req : http.Request) : M unit :=
  r <- completeUserAuth req name ;;
  match r with
  | Err err => log_Print ("Can't complete user's authentication, " +:+ err)
  | Ok user => url <- Login req (goth.Email user) ;; redirect url
  end.

Definition loginRoute (name : string) (req : http.Request) : M unit :=
  r <- completeUserAuth req name ;;
  match r with
  | Ok user => url <- Login req (goth.Email user) ;; redirect url
  | Err _ => beginAuthHandler req name
  end.

Definition logoutRoute (name : string) (req : http.Request) : M unit :=
  logout req name ;;;
  url <- Logout req ;;
  redirect url.

(** The routes [SetProvider] registers with [r.Get], in order. *)
Definition SetProvider (provider : goth.Provider Sess)
    (loginURL logoutURL callbackURL : string)
    : list (string * (http.Request -> M unit)) :=
  let name := goth.Name provider in
  [ (callbackURL, callbackRoute name);
    (loginURL, loginRoute name);
    (logoutURL, logoutRoute name) ].

End login.

End login.

(** ** A concrete set of collaborators

    One OAuth2-style provider, a codec and a URL parser, small enough to
    run: the worlds of the examples below are built from them. *)

Module demo.

(** [strings.Cut]: the text before the first [sep], and the text after
    it when there is one. *)
Fixpoint cut (sep : ascii) (s : string) : string * option string :=
  match s with
  | "" => ("", None)
  | String c rest =>
      if Ascii.eqb c sep then ("", Some rest)
      else let (a, b) := cut sep rest in (String c a, b)
  end.

Fixpoint split_from (sep : ascii) (cur s : string) : list string :=
  match s with
  | "" => [cur]
  | String c rest =>
      if Ascii.eqb c sep then cur :: split_from sep "" rest
      else split_from sep (cur +:+ String c "") rest
  end.

(** The query of a URL without escapes: [k=v] pairs between [&]. *)
Definition ParseQuery (q : string) : url.Values :=
  fold_left
    (fun (m : url.Values) piece =>
       if bool_decide (piece = "") then m
       else
         let (k, v) := cut "=" piece in
         <[k := default [] (m !! k) ++ [default "" v]]> m)
    (split_from "&" "" q) ∅.

Fixpoint has_control (s : string) : bool :=
  match s with
  | "" => false
  | String c rest =>
      (nat_of_ascii c <? 32)%nat || (nat_of_ascii c =? 127)%nat || has_control rest
  end.

Definition Parse (raw : string) : Result url.URL :=
  if has_control raw then Err "net/url: invalid control character in URL"
  else
    let (_, q) := cut "?" raw in
    Ok {| url.Raw := raw; url.Query := ParseQuery (default "" q) |}.

(** A request with the given route parameter and raw query. *)
Definition request (provider query : string) : http.Request :=
  {| http.URL := {| url.Raw := "/" +:+ provider +:+ "/callback?" +:+ query;
                    url.Query := ParseQuery query |};
     http.RouteParams := {[ "provider" := provider ]} |}.

Record Sess : Type := { AuthURL : string; AccessToken : string }.

Definition Marshal (s : Sess) : string := AccessToken s +:+ "|" +:+ AuthURL s.

Definition Unmarshal (value : string) : Result Sess :=
  match cut "|" value with
  | (t, Some u) => Ok {| AuthURL := u; AccessToken := t |}
  | (_, None) => Err "unexpected end of JSON input"
  end.

#[global] Instance oauth2_session : goth.Session Sess := {
  goth.GetAuthURL s :=
    if bool_decide (AuthURL s = "") then Err "an AuthURL has not been set"
    else Ok (AuthURL s);
  goth.Marshal := Marshal;
  goth.Authorize s _ params :=
    let code := url.Get params "code" in
    if bool_decide (code = "") then (Err "oauth2: cannot fetch token", s)
    else (Ok ("token-" +:+ code),
          {| AuthURL := AuthURL s; AccessToken := "token-" +:+ code |})
}.

Definition gplus : goth.Provider Sess := {|
  goth.Name := "gplus";
  goth.BeginAuth state :=
    Ok {| AuthURL := "https://accounts.google.com/o/oauth2/auth?client_id=key&state=" +:+ state;
          AccessToken := "" |};
  goth.UnmarshalSession := Unmarshal;
  goth.FetchUser s :=
    if bool_decide (AccessToken s = "")
    then Err "gplus cannot get user information without accessToken"
    else Ok {| goth.Email := "admin@example.com"; goth.UserID := AccessToken s |}
|}.

(** [http.Redirect] for an absolute target, without the HTML note. *)
Definition Redirect (r : http.Request) (url : string) (code : Z)
    (res : http.Response) : http.Response :=
  http.WriteHeader code (http.Header_Set "Location" url res).

#[global] Instance linked : Linked Sess := {
  providers := {[ "gplus" := gplus ]};
  url_Parse := Parse;
  http_Redirect := Redirect
}.

(** A codec that frames the bytes by the gzip magic number and stores
    them as they are. *)
Definition magic : list byte := [x1f; x8b].

#[global] Instance stored : gzip.Codec := {
  gzip.Writer := list byte;
  gzip.Reader := list byte;
  gzip.NewWriter := magic;
  gzip.Write w p := (w ++ p, None);
  gzip.Flush w := (w, None);
  gzip.Close w := (w, None);
  gzip.Bytes w := w;
  gzip.NewReader b :=
    match b with
    | [] => Err "EOF"
    | [_] => Err "unexpected EOF"
    | b0 :: b1 :: rest =>
        if Byte.eqb b0 x1f && Byte.eqb b1 x8b then Ok rest
        else Err "gzip: invalid header"
    end;
  gzip.ReadAll r := Ok r
}.

Definition gz (value : string) : list byte :=
  magic ++ list_byte_of_string value.

(** The session blob [BeginAuth state] leaves behind, and the one a
    completed flow holds. *)
Definition pending (state : string) : Sess :=
  {| AuthURL := "https://accounts.google.com/o/oauth2/auth?client_id=key&state=" +:+ state;
     AccessToken := "" |}.

Definition authorized (state : string) : Sess :=
  {| AuthURL := "https://accounts.google.com/o/oauth2/auth?client_id=key&state=" +:+ state;
     AccessToken := "token-4/P7q" |}.

Definition session_with (d : gmap string scs.Value) : scs.Session :=
  {| scs.data := d; scs.loadErr := None; scs.writeErr := None |}.

(** A session whose store refuses every write. *)
Definition readonly_session (d : gmap string scs.Value) : scs.Session :=
  {| scs.data := d; scs.loadErr := None;
     scs.writeErr := Some "redis: connection refused" |}.

Definition world (s : scs.Session) : World :=
  {| session := s; resp := http.fresh; logs := [];
     rand_src := fun n => 2654435761 * Z.of_nat (S n); rand_pos := 0;
     calls := [] |}.

(** A browser session that completed the flow, one that only began it,
    and the first with a store that refuses writes or cannot be loaded. *)
Definition completed_blob : gmap string scs.Value :=
  {[ "gplus" := scs.VBytes (gz (Marshal (authorized "abc"))) ]}.

Definition pending_blob : gmap string scs.Value :=
  {[ "gplus" := scs.VBytes (gz (Marshal (pending "abc"))) ]}.

Definition completed_world : World := world (session_with completed_blob).
Definition pending_world : World := world (session_with pending_blob).
Definition readonly_world : World := world (readonly_session completed_blob).

Definition unreachable_world : World :=
  world {| scs.data := completed_blob;
           scs.loadErr := Some "redis: connection refused";
           scs.writeErr := None |}.

(** A browser session with no entry at all. *)
Definition empty_world : World := world (session_with ∅).

(** A browser session of a signed-in user. *)
Definition signed_in (email : string) : World :=
  world (session_with {[ "email" := scs.VString email ]}).

(** A configuration with a duplicate email. *)
Definition staff : Provider :=
  NewProvider {| Key := "key"; Secret := "secret"; Callback := "https://example.com" |}
    [ {| Access := AdminAccess; Email := "admin@example.com" |};
      {| Access := NoneAccess; Email := "guest@example.com" |};
      {| Access := AdminAccess; Email := "guest@example.com" |} ].

End demo.

(** ** Texts and fixtures the further properties speak of *)

(** A character of a base64url text: a letter, a digit, [-] or [_], or
    the padding [=]. *)
Definition url_safe (c : ascii) : bool :=
  let n := nat_of_ascii c in
  ((65 <=? n) && (n <=? 90) || (97 <=? n) && (n <=? 122)
   || (48 <=? n) && (n <=? 57) || (n =? 45) || (n =? 95) || (n =? 61))%nat.

Fixpoint all_chars (P : ascii -> bool) (s : string) : bool :=
  match s with
  | "" => true
  | String c rest => P c && all_chars P rest
  end.

Definition is_BeginAuth (c : Call) : bool :=
  match c with CallBeginAuth _ => true | _ => false end.

Module fixtures.

(** A completed session whose authorization URL carries no state. *)
Definition stateless : demo.Sess :=
  {| demo.AuthURL := "https://accounts.google.com/o/oauth2/auth?client_id=key";
     demo.AccessToken := "token-4/P7q" |}.

Definition stateless_world : World :=
  demo.world
    (demo.session_with {[ "gplus" := scs.VBytes (demo.gz (demo.Marshal stateless)) ]}).

(** A signed-in browser session that also holds a completed flow. *)
Definition signed_in_world : World :=
  demo.world
    (demo.session_with
       (<[ "email" := scs.VString "admin@example.com" ]> demo.completed_blob)).

(** The hooks of an application that greets and says goodbye. *)
Definition hooks : login.Handler :=
  {| login.Login _ email := ret ("/welcome?user=" +:+ email);
     login.Logout _ := ret "/goodbye" |}.

(** A downstream handler that writes a page. *)
Definition page (r : http.Request) : M unit :=
  modify_resp (http.Write "<h1>admin</h1>").

End fixtures.

(** * Verification *)

(** ** The encoders *)

Example base64_EncodeToString_examples :
  base64.EncodeToString (list_byte_of_string "foobar") = "Zm9vYmFy"
  /\ base64.EncodeToString (list_byte_of_string "fo") = "Zm8="
  /\ base64.EncodeToString (list_byte_of_string "f") = "Zg=="
  /\ base64.EncodeToString [xfb; xff] = "-_8=".
Proof. repeat split; reflexivity. Qed.

Lemma EncodeToString_nonempty (src : list byte) :
  src <> [] -> base64.EncodeToString src <> "".
Proof.
  destruct src as [|a [|b [|c rest]]]; [congruence | | | ]; intros _; discriminate.
Qed.

(** ** The access policy *)

Section policy.

Implicit Types (t : Provider) (el : UserInfo) (email : string).

Lemma getAccessByEmail_loop_unknown (l : list UserInfo) email :
  email ∉ (Email <$> l) -> getAccessByEmail_loop l email = NoneAccess.
Proof.
  induction l as [|el l IH]; simpl; [reflexivity|].
  intros Hnot. apply not_elem_of_cons in Hnot as [Hne Hrest].
  rewrite bool_decide_eq_false_2 by congruence. auto.
Qed.

(** The scan stops at the first entry that carries the email. *)
Lemma getAccessByEmail_loop_first (l1 l2 : list UserInfo) el email :
  email ∉ (Email <$> l1) -> Email el = email ->
  getAccessByEmail_loop (l1 ++ el :: l2) email = Access el.
Proof.
  intros Hnot Heq. induction l1 as [|x l1 IH]; simpl.
  - rewrite bool_decide_eq_true_2 by assumption. reflexivity.
  - simpl in Hnot. apply not_elem_of_cons in Hnot as [Hne Hrest].
    rewrite bool_decide_eq_false_2 by congruence. auto.
Qed.

(** Every email of the list has a first entry. *)
Lemma first_entry (l : list UserInfo) el :
  el ∈ l ->
  exists l1 first l2,
    l = l1 ++ first :: l2 /\ (Email el ∉ (Email <$> l1)) /\ Email first = Email el.
Proof.
  induction l as [|x l IH]; intros Hin; [by apply elem_of_nil in Hin|].
  destruct (decide (Email x = Email el)) as [Heq|Hne].
  - exists [], x, l. split; [reflexivity|]. split; [apply not_elem_of_nil | assumption].
  - apply elem_of_cons in Hin as [->|Hin]; [congruence|].
    destruct (IH Hin) as (l1 & first & l2 & -> & Hnot & Heq).
    exists (x :: l1), first, l2. split; [reflexivity|]. split; [|assumption].
    simpl. apply not_elem_of_cons. split; [congruence | assumption].
Qed.

(** C5: an email that no entry of the configured list carries has access
    level [NoneAccess] ([getAccessByEmail] falls through its scan), and a
    session whose email is the empty string has access level [NoneAccess]
    ([GetAccess] returns before any scan). *)
Theorem C5_unknown_or_empty_email_is_NoneAccess t email (req : http.Request) (w : World) :
  (email ∉ (Email <$> UserList t) -> getAccessByEmail t email = NoneAccess)
  /\ (email ∉ (Email <$> UserList t) ->
      scs.GetString (session w) "email" = Ok email ->
      GetAccess t req w = NoneAccess)
  /\ (scs.GetString (session w) "email" = Ok "" -> GetAccess t req w = NoneAccess).
Proof.
  split; [|split].
  - apply getAccessByEmail_loop_unknown.
  - intros Hnot Hget. unfold GetAccess. rewrite Hget.
    case_bool_decide; [reflexivity|]. by apply getAccessByEmail_loop_unknown.
  - intros Hget. unfold GetAccess. rewrite Hget. reflexivity.
Qed.

(** A session that cannot be read, or that holds no email, gives
    [NoneAccess] as well. *)
Lemma GetAccess_failed_lookup t (req : http.Request) (w : World) (e : error) :
  scs.GetString (session w) "email" = Err e -> GetAccess t req w = NoneAccess.
Proof. intros Hget. unfold GetAccess. rewrite Hget. reflexivity. Qed.

(** C6: for every entry of the configured list, looking up its email
    returns the level of the first entry of the list that carries that
    email: the entries before it carry other emails. *)
Theorem C6_first_match_wins t el :
  el ∈ UserList t ->
  exists l1 first l2,
    UserList t = l1 ++ first :: l2
    /\ (Email el ∉ (Email <$> l1))
    /\ Email first = Email el
    /\ getAccessByEmail t (Email el) = Access first.
Proof.
  intros Hin. destruct (first_entry _ _ Hin) as (l1 & first & l2 & Hl & Hnot & Heq).
  exists l1, first, l2. repeat split; try assumption.
  unfold getAccessByEmail. rewrite Hl. by apply getAccessByEmail_loop_first.
Qed.

(** Without duplicate emails every configured pair is returned as it is. *)
Lemma getAccessByEmail_configured t el :
  NoDup (Email <$> UserList t) -> el ∈ UserList t ->
  getAccessByEmail t (Email el) = Access el.
Proof.
  unfold getAccessByEmail. induction (UserList t) as [|x l IH]; simpl; intros Hnd Hin.
  - by apply elem_of_nil in Hin.
  - apply NoDup_cons in Hnd as [Hx Hnd].
    apply elem_of_cons in Hin as [->|Hin].
    + rewrite bool_decide_eq_true_2; reflexivity.
    + rewrite bool_decide_eq_false_2; [by apply IH|].
      intros Heq. apply Hx. rewrite Heq. by apply list_elem_of_fmap_2.
Qed.

Lemma CheckAccess_loop_elem_of (access : AccessType) (types : list AccessType) :
  CheckAccess_loop access types = bool_decide (access ∈ types).
Proof.
  induction types as [|el types IH]; cbn [CheckAccess_loop].
  - symmetry. apply bool_decide_eq_false, not_elem_of_nil.
  - destruct (decide (el = access)) as [->|Hne].
    + rewrite (bool_decide_eq_true_2 (access = access)) by reflexivity.
      symmetry. apply bool_decide_eq_true, list_elem_of_here.
    + rewrite (bool_decide_eq_false_2 (el = access)) by assumption.
      rewrite IH. apply bool_decide_ext. rewrite elem_of_cons.
      split; [auto | intros [?|?]; [congruence | assumption]].
Qed.

(** C7: [CheckAccess] answers whether the caller's level is one of the
    allowed levels, by equality alone: a check for a single level holds
    exactly when the caller has that level, so no request passes both the
    check for [AdminAccess] and the check for [NoneAccess]. *)
Theorem C7_CheckAccess_is_membership t (req : http.Request)
    (types : list AccessType) (a : AccessType) (w : World) :
  CheckAccess t req types w = bool_decide (GetAccess t req w ∈ types)
  /\ CheckAccess t req [a] w = bool_decide (GetAccess t req w = a)
  /\ CheckAccess t req [AdminAccess] w && CheckAccess t req [NoneAccess] w = false.
Proof.
  unfold CheckAccess. split; [apply CheckAccess_loop_elem_of|]. split.
  - simpl. case_bool_decide; case_bool_decide; congruence.
  - simpl. destruct (GetAccess t req w); reflexivity.
Qed.

End policy.

(** ** The flow *)

Section flow.

Context {Sess : Type} {goth_session : goth.Session Sess}
  {codec : gzip.Codec} {linked : Linked Sess}.

Implicit Types (req : http.Request) (w : World) (t : Provider).

Ltac unfold_flow :=
  unfold completeUserAuth, defer, completeUserAuth_body, logout,
    getAuthURL, beginAuthHandler,
    getFromSession, getSessionValue, storeInSession, updateSessionValue,
    goth_GetProvider, provider_BeginAuth, provider_UnmarshalSession,
    provider_FetchUser, sess_Authorize,
    session_GetBytes, session_PutBytes, session_Remove,
    trace, log_Print, modify_resp, modify, bind, ret in *.

(** Bring both sides of an equation between traces to the form
    [calls w ++ c1 :: c2 :: ...]. *)
Ltac norm_calls :=
  unfold loaded; simpl; rewrite <- ?app_assoc; simpl; try reflexivity.

(** Read the fields of a world through the updates made to it. *)
Ltac fields :=
  cbn [fst snd session resp logs calls
       add_call add_log set_session set_resp draw].

(** Run every branch of the unfolded flow. *)
Ltac branches := repeat (case_match; simpl in *; try reflexivity).

(** *** [setState] *)

Lemma nonceBytes_length (n : nat) w : length (fst (nonceBytes n w)) = n.
Proof.
  revert w. induction n as [|n IH]; intros w; [reflexivity|].
  simpl. unfold bind, ret. simpl. by rewrite IH.
Qed.

(** The state sent to the provider is never empty: it is the caller's
    non-empty state, or the encoding of 64 random bytes. *)
Lemma setState_nonempty req w : fst (setState req w) <> "".
Proof.
  unfold setState.
  destruct (url.Get (url.Query (http.URL req)) "state") as [|c s] eqn:Hst.
  - change (0 <? String.length "")%nat with false. cbv beta iota.
    unfold bind, ret. cbn [fst snd]. apply EncodeToString_nonempty.
    intros Hnil. pose proof (nonceBytes_length 64 w) as Hlen.
    rewrite Hnil in Hlen. discriminate.
  - discriminate.
Qed.

(** A state the caller supplied is passed on as it is. *)
Lemma setState_caller_supplied req w :
  getState req <> "" -> setState req w = (getState req, w).
Proof.
  unfold setState, getState.
  destruct (url.Get (url.Query (http.URL req)) "state"); [congruence|reflexivity].
Qed.

(** *** [logout] *)

Lemma logout_run req w :
  logout req w =
  match getProviderName req with
  | Err _ => (Some "Can't detect provider", w)
  | Ok name =>
      (match snd (scs.Remove (session w) name) with
       | Some _ => Some "Could not delete user session "
       | None => None
       end,
       add_call (CallRemove name) (set_session (fst (scs.Remove (session w) name)) w))
  end.
Proof.
  unfold_flow. destruct (getProviderName req); [|reflexivity].
  simpl. destruct (scs.Remove (session w) a) as [s [e|]]; reflexivity.
Qed.

(** In the model, which leaves the session cookie out, [logout] does not
    reach the response at all. *)
Lemma logout_resp req w : resp (snd (logout req w)) = resp w.
Proof. rewrite logout_run. by destruct (getProviderName req). Qed.

Lemma logout_logs req w : logs (snd (logout req w)) = logs w.
Proof. rewrite logout_run. by destruct (getProviderName req). Qed.

(** A removal that reported no error left no entry under the key. *)
Lemma Remove_ok (s : scs.Session) (key : string) :
  snd (scs.Remove s key) = None -> scs.data (fst (scs.Remove s key)) !! key = None.
Proof.
  unfold scs.Remove. destruct (scs.loadErr s); [discriminate|].
  destruct (scs.data s !! key) eqn:Hk; [|by intros _].
  destruct (scs.writeErr s); [discriminate|]. intros _. simpl. apply lookup_delete_eq.
Qed.

(** *** [redirect] and the logout route *)

Lemma redirect_fresh (url : string) w :
  http.status (resp w) = None ->
  http.status (resp (snd (redirect url w))) = Some http.StatusTemporaryRedirect.
Proof.
  intros Hst. unfold redirect, modify_resp, modify, bind. simpl.
  unfold http.WriteHeader. simpl. by rewrite Hst.
Qed.

Lemma redirect_Location (url : string) w :
  http.Header (resp (snd (redirect url w))) !! "Location" = Some [url].
Proof.
  unfold redirect, modify_resp, modify, bind. simpl.
  unfold http.WriteHeader. simpl. destruct (http.status (resp w)); simpl; apply lookup_insert_eq.
Qed.

Lemma redirect_body (url : string) w :
  http.body (resp (snd (redirect url w))) = http.body (resp w).
Proof.
  unfold redirect, modify_resp, modify, bind. simpl.
  unfold http.WriteHeader. simpl. by destruct (http.status (resp w)).
Qed.

(** C8: on every request to the logout route the handler sets the
    [Location] header to the configured success page and, the status line
    being unwritten when the handler starts, answers 307 without a body,
    whatever [logout] returned. *)
Theorem C8_logout_route_always_redirects t req w :
  http.status (resp w) = None ->
  let w' := snd (logoutRoute t req w) in
  http.status (resp w') = Some 307
  /\ http.Header (resp w') !! "Location" = Some [SuccessPage t]
  /\ http.body (resp w') = http.body (resp w).
Proof.
  intros Hst. unfold logoutRoute, bind. cbn [fst snd].
  split; [|split].
  - apply redirect_fresh. by rewrite logout_resp.
  - apply redirect_Location.
  - by rewrite redirect_body, logout_resp.
Qed.

(** *** [completeUserAuth]: what the body leaves alone *)

Lemma completeUserAuth_body_resp req w :
  resp (snd (completeUserAuth_body req w)) = resp w.
Proof. unfold_flow. simpl. branches. Qed.

(** The body only adds calls to the trace, and none of them is a removal. *)
Lemma completeUserAuth_body_calls req w :
  exists pre,
    calls (snd (completeUserAuth_body req w)) = calls w ++ pre
    /\ forallb (fun c => negb (is_Remove c)) pre = true.
Proof.
  unfold_flow. simpl. branches;
    first [ exists []; split; [by rewrite app_nil_r | reflexivity]
          | eexists; split; [rewrite <- ?app_assoc; reflexivity | reflexivity] ].
Qed.

Lemma completeUserAuth_run req w :
  completeUserAuth req w =
  (fst (completeUserAuth_body req w),
   snd (logout req (snd (completeUserAuth_body req w)))).
Proof. reflexivity. Qed.

(** C1 (as the code has it): the [defer] makes the removal the last step
    of [completeUserAuth], not the first.  On every request the result is
    the one the body computes on the world as it is at entry (provider
    resolved, prior blob loaded from the untouched session, unmarshalled,
    state validated); the calls of the body come first and none of them is
    a removal; the removal of the entry of the named provider is the last
    call, and there is none when the request names no provider. *)
Theorem C1_logout_runs_last req w :
  exists pre,
    fst (completeUserAuth req w) = fst (completeUserAuth_body req w)
    /\ calls (snd (completeUserAuth_body req w)) = calls w ++ pre
    /\ forallb (fun c => negb (is_Remove c)) pre = true
    /\ calls (snd (completeUserAuth req w)) =
       calls w ++ pre ++
       match getProviderName req with
       | Ok name => [CallRemove name]
       | Err _ => []
       end.
Proof.
  destruct (completeUserAuth_body_calls req w) as (pre & Hpre & Hnone).
  exists pre. split; [reflexivity|]. split; [assumption|]. split; [assumption|].
  rewrite completeUserAuth_run. cbn [snd]. rewrite logout_run.
  destruct (getProviderName req) as [name|e]; simpl.
  - rewrite Hpre. by rewrite <- app_assoc.
  - rewrite Hpre. by rewrite app_nil_r.
Qed.

(** C3 (as the code has it): after every return of [completeUserAuth]
    for a request that names a provider, a successful return included,
    the deferred [logout] has run, its removal being the last call; when
    that [logout] reports no error, the session holds no entry for the
    provider. *)
Theorem C3_session_cleared_when_removal_succeeds req w name :
  getProviderName req = Ok name ->
  let w1 := snd (completeUserAuth_body req w) in
  let w' := snd (completeUserAuth req w) in
  last (calls w') = Some (CallRemove name)
  /\ (fst (logout req w1) = None -> scs.data (session w') !! name = None).
Proof.
  intros Hname w1 w'. subst w1 w'. rewrite completeUserAuth_run. cbn [snd].
  rewrite logout_run, Hname. cbn [fst snd]. split.
  - simpl. apply last_snoc.
  - destruct (snd (scs.Remove _ name)) eqn:Hrm; [discriminate|].
    intros _. simpl. by apply Remove_ok.
Qed.

(** Neither failure mode of the session changes while the body runs. *)
Lemma completeUserAuth_body_health req w :
  scs.loadErr (session (snd (completeUserAuth_body req w))) = scs.loadErr (session w)
  /\ scs.writeErr (session (snd (completeUserAuth_body req w))) = scs.writeErr (session w).
Proof.
  unfold_flow. simpl. unfold scs.PutBytes, scs.put.
  branches; split; first [reflexivity | congruence].
Qed.

(** With a session store that is up, the entry is gone after every
    return. *)
Corollary completeUserAuth_clears_healthy_session req w name :
  getProviderName req = Ok name ->
  scs.loadErr (session w) = None ->
  scs.writeErr (session w) = None ->
  scs.data (session (snd (completeUserAuth req w))) !! name = None.
Proof.
  intros Hname Hload Hwrite.
  rewrite completeUserAuth_run. cbn [snd]. rewrite logout_run, Hname. simpl.
  apply Remove_ok.
  destruct (completeUserAuth_body_health req w) as [Hl Hw].
  unfold scs.Remove. rewrite Hl, Hw, Hload, Hwrite.
  by destruct (scs.data _ !! name).
Qed.

(** *** The session adapter *)

(** What [getFromSession] returns depends on the session alone, and a
    successful load only adds its call to the trace. *)
Lemma getFromSession_ok (name value : string) req w :
  fst (getFromSession name req w) = Ok value ->
  forall c,
    getFromSession name req (add_call c w)
    = (Ok value, add_call (CallGetBytes name) (add_call c w)).
Proof.
  unfold_flow. simpl. branches; congruence.
Qed.

(** A store that reported no error made exactly one call, with the
    compressed value. *)
Lemma updateSessionValue_ok (key value : string) w :
  fst (updateSessionValue key value w) = None ->
  snd (updateSessionValue key value w)
  = add_call (CallPutBytes key (compressed value))
      (set_session (fst (scs.PutBytes (session w) key (compressed value))) w)
  /\ snd (scs.PutBytes (session w) key (compressed value)) = None.
Proof.
  unfold_flow. unfold compressed.
  destruct (gzip.Write _ _) as [w1 [e|]]; [discriminate|].
  destruct (gzip.Flush _) as [w2 [e|]]; [discriminate|].
  destruct (gzip.Close _) as [w3 [e|]]; [discriminate|].
  simpl. intros H. split; [reflexivity | assumption].
Qed.

(** A store that reported an error made at most the one call, and left
    the session as it was. *)
Lemma updateSessionValue_failed (key value : string) w (e : error) :
  fst (updateSessionValue key value w) = Some e ->
  session (snd (updateSessionValue key value w)) = session w
  /\ (calls (snd (updateSessionValue key value w)) = calls w
      \/ calls (snd (updateSessionValue key value w))
         = calls w ++ [CallPutBytes key (compressed value)]).
Proof.
  unfold_flow. unfold compressed.
  destruct (gzip.Write _ _) as [w1 [e1|]]; [intros _; split; [reflexivity | by left]|].
  destruct (gzip.Flush _) as [w2 [e2|]]; [intros _; split; [reflexivity | by left]|].
  destruct (gzip.Close _) as [w3 [e3|]]; [intros _; split; [reflexivity | by left]|].
  simpl. unfold scs.PutBytes, scs.put.
  destruct (scs.loadErr (session w)); simpl.
  - intros _. split; [by destruct (session w) | by right].
  - destruct (scs.writeErr (session w)); simpl; [|discriminate].
    intros _. split; [by destruct (session w) | by right].
Qed.

(** C4: whatever bytes [value] holds, once [updateSessionValue] has
    stored it under a key without error, [getSessionValue] under the same
    key returns [value] unchanged; the codec is any one that reads back
    what it wrote. *)
Theorem C4_session_value_round_trip (lossless : gzip.Lossless codec)
    (key value : string) w :
  fst (updateSessionValue key value w) = None ->
  fst (getSessionValue key (snd (updateSessionValue key value w))) = Ok value.
Proof.
  intros Hok. destruct (updateSessionValue_ok key value w Hok) as [-> Hput].
  revert Hok Hput. unfold_flow. unfold compressed.
  destruct (gzip.Write _ _) as [w1 [e|]] eqn:Hw; [discriminate|].
  destruct (gzip.Flush _) as [w2 [e|]] eqn:Hf; [discriminate|].
  destruct (gzip.Close _) as [w3 [e|]] eqn:Hc; [discriminate|].
  simpl. intros _.
  destruct (lossless _ _ _ _ Hw Hf Hc) as (r & Hnew & Hread).
  unfold scs.PutBytes, scs.put, scs.GetBytes.
  destruct (scs.loadErr (session w)) eqn:Hl; simpl; [discriminate|].
  destruct (scs.writeErr (session w)) eqn:Hwr; simpl; [discriminate|].
  intros _. rewrite Hl, lookup_insert_eq.
  rewrite list_byte_of_string_of_list_byte, Hnew, Hread.
  by rewrite string_of_list_byte_of_string.
Qed.

(** *** [validateState] and the callback *)

Lemma updateSessionValue_same_session (key value : string) w1 w2 :
  session w1 = session w2 ->
  fst (updateSessionValue key value w1) = fst (updateSessionValue key value w2).
Proof.
  intros Hs. unfold_flow.
  destruct (gzip.Write _ _) as [g1 [e|]]; [reflexivity|].
  destruct (gzip.Flush _) as [g2 [e|]]; [reflexivity|].
  destruct (gzip.Close _) as [g3 [e|]]; [reflexivity|].
  simpl. by rewrite Hs.
Qed.

Section stored_session.

(** A request that names a registered provider, for which the session
    holds a blob that loads and unmarshals to [sess]. *)
Variables (req : http.Request) (w : World) (name value : string)
  (provider : goth.Provider Sess) (sess : Sess).
Hypothesis Hname : getProviderName req = Ok name.
Hypothesis Hprovider : providers !! name = Some provider.
Hypothesis Hload : fst (getFromSession name req w) = Ok value.
Hypothesis Hunmarshal : goth.UnmarshalSession provider value = Ok sess.

Ltac to_validation :=
  unfold completeUserAuth_body, goth_GetProvider, provider_UnmarshalSession,
    goth.GetProvider, trace, modify, bind, ret;
  cbn [fst snd]; rewrite Hname; cbn [fst snd]; rewrite Hprovider; cbn [fst snd];
  rewrite (getFromSession_ok _ _ _ _ Hload); cbn [fst snd];
  rewrite Hunmarshal; cbn [fst snd].

Lemma body_state_mismatch (err : error) :
  validateState req sess = Some err ->
  completeUserAuth_body req w = (Err err, loaded name value w).
Proof. intros Hv. to_validation. rewrite Hv. reflexivity. Qed.

Lemma body_state_accepted :
  validateState req sess = None ->
  exists rest,
    calls (snd (completeUserAuth_body req w))
    = calls (loaded name value w) ++ CallFetchUser :: rest.
Proof.
  intros Hv. to_validation. rewrite Hv.
  unfold provider_FetchUser, sess_Authorize, storeInSession, trace, modify, bind, ret.
  cbn [fst snd].
  destruct (goth.FetchUser provider sess) as [u|e1]; cbn [fst snd]; [by exists []|].
  destruct (fst (goth.Authorize _ _ _)) as [tok|e2]; cbn [fst snd].
  - destruct (updateSessionValue _ _ _) as [[e3|] w2] eqn:Hst; cbn [fst snd].
    + destruct (updateSessionValue_failed _ _ _ e3 (f_equal fst Hst)) as [_ [Hc|Hc]];
        rewrite Hst in Hc; cbn [snd] in Hc; rewrite Hc; eexists; norm_calls.
    + destruct (updateSessionValue_ok _ _ _ (f_equal fst Hst)) as [Hw2 _].
      rewrite Hst in Hw2. cbn [snd] in Hw2. subst w2. eexists; norm_calls.
  - eexists; norm_calls.
Qed.

(** A stored authorization URL without a state, or with an empty one,
    switches the comparison off. *)
Lemma validateState_without_state (rawAuthURL : string) (authURL : url.URL) :
  goth.GetAuthURL sess = Ok rawAuthURL ->
  url_Parse rawAuthURL = Ok authURL ->
  url.Get (url.Query authURL) "state" = "" ->
  validateState req sess = None.
Proof.
  intros Hraw Hparse Hstate. unfold validateState.
  rewrite Hraw, Hparse, Hstate. reflexivity.
Qed.

(** C2: for a stored session whose authorization URL embeds a state, a
    callback whose [state] parameter equals it passes [validateState],
    and [completeUserAuth] goes on to fetch the profile; a callback with
    any other [state] makes [validateState], and with it
    [completeUserAuth], fail with the state-mismatch error, before any
    fetch. *)
Theorem C2_state_round_trip (rawAuthURL : string) (authURL : url.URL) :
  goth.GetAuthURL sess = Ok rawAuthURL ->
  url_Parse rawAuthURL = Ok authURL ->
  url.Get (url.Query authURL) "state" <> "" ->
  (getState req = url.Get (url.Query authURL) "state" ->
   validateState req sess = None
   /\ exists rest,
        calls (snd (completeUserAuth req w))
        = calls w ++ [CallGetProvider name; CallGetBytes name;
                      CallUnmarshalSession value; CallFetchUser] ++ rest)
  /\ (getState req <> url.Get (url.Query authURL) "state" ->
      validateState req sess = Some "state token mismatch"
      /\ fst (completeUserAuth req w) = Err "state token mismatch"
      /\ calls (snd (completeUserAuth req w))
         = calls w ++ [CallGetProvider name; CallGetBytes name;
                       CallUnmarshalSession value; CallRemove name]).
Proof.
  intros Hraw Hparse Hstate. unfold getState. split; intros Hreq.
  - assert (Hv : validateState req sess = None).
    { unfold validateState. rewrite Hraw, Hparse.
      rewrite (bool_decide_eq_false_2 (_ <> url.Get (url.Query (http.URL req)) "state"))
        by (intros Hne; by apply Hne).
      by rewrite andb_false_r. }
    split; [assumption|].
    destruct (body_state_accepted Hv) as (rest & Hcalls).
    rewrite completeUserAuth_run. cbn [snd]. rewrite logout_run, Hname. simpl.
    rewrite Hcalls. eexists. norm_calls.
  - assert (Hv : validateState req sess = Some "state token mismatch").
    { unfold validateState. rewrite Hraw, Hparse.
      rewrite !bool_decide_eq_true_2; [reflexivity | congruence | assumption]. }
    split; [assumption|].
    rewrite completeUserAuth_run, (body_state_mismatch _ Hv). cbn [fst snd].
    split; [reflexivity|]. rewrite logout_run, Hname. norm_calls.
Qed.

(** C10: when the first profile fetch fails, [completeUserAuth] makes
    one token exchange with the query parameters of the request; if the
    exchange fails, or if the refreshed session cannot be stored, that
    error is the result, no second fetch is made and the session is as
    it was; otherwise the refreshed session is stored once, so that the
    session holds its compressed marshalling under the name of the
    provider when the body ends, the profile is fetched once more, and
    the outcome of that second fetch, user or error, is the result.
    Nothing but the deferred removal follows. *)
Theorem C10_one_refresh_one_retry (e1 : error) :
  validateState req sess = None ->
  goth.FetchUser provider sess = Err e1 ->
  let params := url.Query (http.URL req) in
  let a := goth.Authorize sess provider params in
  let refreshed := goth.Marshal (snd a) in
  let run := completeUserAuth req w in
  let persisted := session (snd (completeUserAuth_body req w)) in
  let exchanged :=
    calls w ++ [CallGetProvider name; CallGetBytes name;
                CallUnmarshalSession value; CallFetchUser;
                CallAuthorize params] in
  match fst a with
  | Err err =>
      fst run = Err err
      /\ calls (snd run) = exchanged ++ [CallRemove name]
      /\ persisted = session w
  | Ok _ =>
      match fst (storeInSession name refreshed req w) with
      | Some err =>
          fst run = Err err
          /\ (calls (snd run) = exchanged ++ [CallRemove name]
              \/ calls (snd run)
                 = exchanged ++ [CallPutBytes name (compressed refreshed);
                                 CallRemove name])
          /\ persisted = session w
      | None =>
          fst run = goth.FetchUser provider (snd a)
          /\ calls (snd run)
             = exchanged ++ [CallPutBytes name (compressed refreshed);
                             CallFetchUser; CallRemove name]
          /\ persisted = fst (scs.PutBytes (session w) name (compressed refreshed))
          /\ scs.data persisted !! name = Some (scs.VBytes (compressed refreshed))
      end
  end.
Proof.
  intros Hv Hfetch params a refreshed run persisted exchanged.
  subst run persisted. rewrite completeUserAuth_run. cbn [fst snd].
  rewrite logout_run, Hname. cbn [fst snd].
  to_validation. rewrite Hv.
  unfold provider_FetchUser, sess_Authorize, storeInSession, trace, modify, bind, ret.
  cbn [fst snd]. rewrite Hfetch. cbn [fst snd].
  fold params. fold a. fold refreshed.
  destruct (fst a) as [tok|err]; cbn [fst snd].
  - set (w_auth := add_call (CallAuthorize params) _).
    assert (Hsame : session w_auth = session w) by reflexivity.
    rewrite (updateSessionValue_same_session name refreshed w w_auth) by reflexivity.
    destruct (updateSessionValue name refreshed w_auth) as [[err|] w2] eqn:Hst; cbn [fst snd].
    + split; [reflexivity|].
      destruct (updateSessionValue_failed _ _ _ err (f_equal fst Hst)) as [Hkeep Hcalls].
      rewrite Hst in Hkeep, Hcalls. cbn [snd] in Hkeep, Hcalls.
      split; [|by rewrite Hkeep].
      destruct Hcalls as [Hc|Hc]; [left|right];
        subst exchanged w_auth; simpl; rewrite Hc; norm_calls.
    + split; [reflexivity|].
      destruct (updateSessionValue_ok _ _ _ (f_equal fst Hst)) as [Hw2 Hput].
      rewrite Hst in Hw2. cbn [snd] in Hw2. rewrite Hsame in Hw2, Hput.
      split; [subst w2 exchanged w_auth; norm_calls|].
      assert (Hsess : session w2
                      = fst (scs.PutBytes (session w) name (compressed refreshed)))
        by (by subst w2).
      split; [simpl; exact Hsess|]. simpl. rewrite Hsess.
      revert Hput. unfold scs.PutBytes, scs.put.
      destruct (scs.loadErr (session w)); [discriminate|].
      destruct (scs.writeErr (session w)); [discriminate|].
      intros _. simpl. apply lookup_insert_eq.
  - split; [reflexivity|]. split; [subst exchanged; norm_calls | reflexivity].
Qed.

End stored_session.

(** *** Flow errors, route by route *)

(** The session cookie apart, [completeUserAuth] leaves the response to
    its caller. *)
Lemma completeUserAuth_resp req w :
  resp (snd (completeUserAuth req w)) = resp w.
Proof.
  rewrite completeUserAuth_run. cbn [snd].
  by rewrite logout_resp, completeUserAuth_body_resp.
Qed.

Lemma nonceBytes_frame (n : nat) w :
  resp (snd (nonceBytes n w)) = resp w
  /\ logs (snd (nonceBytes n w)) = logs w
  /\ session (snd (nonceBytes n w)) = session w
  /\ calls (snd (nonceBytes n w)) = calls w.
Proof.
  revert w. induction n as [|n IH]; intros w; [done|].
  change (snd (nonceBytes (S n) w)) with (snd (nonceBytes n (draw w))).
  destruct (IH (draw w)) as (-> & -> & -> & ->). done.
Qed.

Lemma setState_frame req w :
  resp (snd (setState req w)) = resp w /\ logs (snd (setState req w)) = logs w.
Proof.
  unfold setState. pose proof (nonceBytes_frame 64) as Hframe.
  revert Hframe. generalize (nonceBytes 64). intros m Hframe. destruct (0 <? _)%nat; [done|].
  unfold bind, ret. cbn [fst snd].
  destruct (Hframe w) as (-> & -> & _). done.
Qed.

(** [getAuthURL] neither writes to the response nor logs. *)
Lemma getAuthURL_frame req w :
  resp (snd (getAuthURL req w)) = resp w /\ logs (snd (getAuthURL req w)) = logs w.
Proof.
  unfold getAuthURL, goth_GetProvider, provider_BeginAuth, storeInSession,
    updateSessionValue, session_PutBytes, trace, modify, bind, ret.
  cbn [fst snd].
  destruct (getProviderName req) as [name|]; cbn [fst snd]; [|done].
  destruct (goth.GetProvider _ _); cbn [fst snd]; [|done].
  destruct (setState_frame req (add_call (CallGetProvider name) w)) as [Hr Hl].
  destruct (goth.BeginAuth _ _); cbn [fst snd]; [|fields; by rewrite Hr, Hl].
  destruct (goth.GetAuthURL _); cbn [fst snd]; [|fields; by rewrite Hr, Hl].
  destruct (gzip.Write _ _) as [g1 [e|]]; [fields; by rewrite Hr, Hl|].
  destruct (gzip.Flush _) as [g2 [e|]]; [fields; by rewrite Hr, Hl|].
  destruct (gzip.Close _) as [g3 [e|]]; [fields; by rewrite Hr, Hl|].
  cbn [fst snd]. destruct (snd (scs.PutBytes _ _ _)); fields; by rewrite Hr, Hl.
Qed.

(** C9 (as the code has it): an error of [completeUserAuth] on the
    callback route (provider resolution, session load, state validation,
    token exchange, profile fetch) is logged and the handler returns
    with no body written, the status line being left as it was; an error
    of the begin-auth step is not logged: [beginAuthHandler] answers it
    with the error text as the body, under status 400 when the status
    line is still unwritten. *)
Theorem C9_flow_errors_by_route t req w (err : error) :
  (fst (completeUserAuth req w) = Err err ->
   let w' := snd (callbackRoute t req w) in
   http.body (resp w') = http.body (resp w)
   /\ http.status (resp w') = http.status (resp w)
   /\ logs w' = logs (snd (completeUserAuth req w))
                ++ ["Can't complete user's authentication, " +:+ err])
  /\ (fst (getAuthURL req w) = Err err ->
      let w' := snd (beginAuthHandler req w) in
      logs w' = logs w
      /\ http.body (resp w') = http.body (resp w) +:+ err +:+ LF
      /\ (http.status (resp w) = None -> http.status (resp w') = Some 400)).
Proof.
  split.
  - intros Herr. unfold callbackRoute, bind. cbn [fst snd]. rewrite Herr.
    unfold log_Print, modify. fields.
    rewrite completeUserAuth_resp. done.
  - intros Herr. unfold beginAuthHandler, bind. cbn [fst snd]. rewrite Herr.
    unfold modify_resp, modify. cbn [fst snd].
    destruct (getAuthURL_frame req w) as [Hr Hl]. simpl. rewrite Hr, Hl.
    split; [reflexivity|]. unfold http.WriteHeader.
    destruct (http.status (resp w)) eqn:Hst; simpl; rewrite ?Hst; simpl;
      repeat split; congruence.
Qed.

(** On the callback route the only lines logged on a failure are the
    error of the session load, when that is what failed, and the line of
    the handler. *)
Lemma completeUserAuth_logs req w :
  logs (snd (completeUserAuth req w)) = logs w
  \/ exists e, logs (snd (completeUserAuth req w)) = logs w ++ [e].
Proof.
  rewrite completeUserAuth_run. cbn [snd]. rewrite logout_logs.
  unfold_flow. simpl. branches; first [by left | right; eexists; reflexivity].
Qed.

(** *** The guard *)

Lemma GuardAccess_allowed t (types : list AccessType)
    (next : http.Request -> M unit) req w :
  CheckAccess t req types w = true ->
  GuardAccess t types next req w = next req w.
Proof. intros Hok. unfold GuardAccess. by rewrite Hok. Qed.

Lemma GuardAccess_denied t (types : list AccessType)
    (next : http.Request -> M unit) req w :
  CheckAccess t req types w = false ->
  resp (snd (GuardAccess t types next req w))
  = http_Redirect req (DeniedPage t) http.StatusTemporaryRedirect (resp w).
Proof. intros Hno. unfold GuardAccess. by rewrite Hno. Qed.

End flow.

(** ** The stand-alone variant *)

(** The logout route of [SetProvider] redirects to the URL its hook
    returns, whatever the [logout] it calls returned, as long as neither
    wrote the status line. *)
Lemma login_logoutRoute_redirects {handler : login.Handler}
    (logout : http.Request -> string -> M (option error))
    (name : string) (req : http.Request) (w : World) :
  let hooked := login.Logout req (snd (logout req name w)) in
  http.status (resp (snd hooked)) = None ->
  let w' := snd (login.logoutRoute logout name req w) in
  http.status (resp w') = Some 307
  /\ http.Header (resp w') !! "Location" = Some [fst hooked].
Proof.
  intros hooked Hst. unfold login.logoutRoute, login.redirect, modify_resp, modify, bind.
  cbn [fst snd]. fold hooked. simpl. unfold http.WriteHeader. simpl. rewrite Hst. simpl.
  split; [reflexivity | apply lookup_insert_eq].
Qed.

(** ** The theorems at work on the concrete collaborators *)

(** The codec of the examples reads back what it wrote. *)
Lemma stored_lossless : gzip.Lossless demo.stored.
Proof.
  intros p w1 w2 w3 Hw Hf Hc. simpl in *.
  injection Hw as <-. injection Hf as <-. injection Hc as <-.
  exists p. split; reflexivity.
Qed.

(** C2 at work: the state [abc] of the stored URL echoed and forged. *)
Lemma C2_witness :
  let value := demo.Marshal (demo.authorized "abc") in
  let echoed := demo.request "gplus" "state=abc&code=4/P7q" in
  let forged := demo.request "gplus" "state=abd&code=4/P7q" in
  getState echoed = "abc" /\ getState forged = "abd"
  /\ validateState echoed (demo.authorized "abc") = None
  /\ validateState forged (demo.authorized "abc") = Some "state token mismatch"
  /\ fst (completeUserAuth forged demo.completed_world) = Err "state token mismatch".
Proof.
  intros value echoed forged.
  pose proof (C2_state_round_trip echoed demo.completed_world "gplus" value
                demo.gplus (demo.authorized "abc")
                eq_refl eq_refl eq_refl eq_refl
                (demo.AuthURL (demo.authorized "abc"))
                {| url.Raw := demo.AuthURL (demo.authorized "abc");
                   url.Query := demo.ParseQuery "client_id=key&state=abc" |}
                eq_refl eq_refl ltac:(vm_compute; discriminate)) as [Hpass _].
  pose proof (C2_state_round_trip forged demo.completed_world "gplus" value
                demo.gplus (demo.authorized "abc")
                eq_refl eq_refl eq_refl eq_refl
                (demo.AuthURL (demo.authorized "abc"))
                {| url.Raw := demo.AuthURL (demo.authorized "abc");
                   url.Query := demo.ParseQuery "client_id=key&state=abc" |}
                eq_refl eq_refl ltac:(vm_compute; discriminate)) as [_ Hfail].
  split; [reflexivity|]. split; [reflexivity|].
  split; [apply Hpass; reflexivity|].
  destruct Hfail as (Hv & Hr & _); [vm_compute; discriminate|].
  split; assumption.
Defined.

(** Without a state of the caller's, [setState] answers the 88
    characters that encode 64 drawn bytes, and draws 64 times. *)
Example setState_generates_nonce :
  let run := setState (demo.request "gplus" "") demo.empty_world in
  String.length (fst run) = 88%nat /\ rand_pos (snd run) = 64%nat.
Proof. split; vm_compute; reflexivity. Qed.

(** C1, refuted as stated: on a callback that succeeds, the removal is
    the last call of the flow, after the blob was loaded and used; had it
    come first there would have been no blob to load. *)
Lemma C1_removal_is_not_first :
  let run := completeUserAuth (demo.request "gplus" "state=abc") demo.completed_world in
  fst run = Ok {| goth.Email := "admin@example.com"; goth.UserID := "token-4/P7q" |}
  /\ calls (snd run)
     = [CallGetProvider "gplus"; CallGetBytes "gplus";
        CallUnmarshalSession (demo.Marshal (demo.authorized "abc"));
        CallFetchUser; CallRemove "gplus"]
  /\ ~ (exists rest, calls (snd run) = CallRemove "gplus" :: rest).
Proof.
  split; [reflexivity|]. split; [reflexivity|].
  intros [rest Hrest]. vm_compute in Hrest. discriminate.
Qed.

(** C3, refuted as stated: with a store that refuses writes the flow
    still returns the user, and the entry of the provider is still in the
    session afterwards. *)
Lemma C3_entry_survives_failed_removal :
  let run := completeUserAuth (demo.request "gplus" "state=abc") demo.readonly_world in
  fst run = Ok {| goth.Email := "admin@example.com"; goth.UserID := "token-4/P7q" |}
  /\ last (calls (snd run)) = Some (CallRemove "gplus")
  /\ scs.data (session (snd run)) !! "gplus"
     = Some (scs.VBytes (demo.gz (demo.Marshal (demo.authorized "abc")))).
Proof. repeat split; reflexivity. Qed.

(** C3 at work: a completed flow on a store that is up. *)
Lemma C3_witness :
  let req := demo.request "gplus" "state=abc" in
  getProviderName req = Ok "gplus"
  /\ fst (logout req (snd (completeUserAuth_body req demo.completed_world))) = None
  /\ last (calls (snd (completeUserAuth req demo.completed_world)))
     = Some (CallRemove "gplus")
  /\ scs.data (session (snd (completeUserAuth req demo.completed_world))) !! "gplus"
     = None.
Proof.
  intros req.
  destruct (C3_session_cleared_when_removal_succeeds req demo.completed_world "gplus" eq_refl)
    as [Hlast Hgone].
  split; [reflexivity|]. split; [reflexivity|]. split; [exact Hlast|].
  apply Hgone. reflexivity.
Defined.

(** C4 at work: a marshalled session stored in an empty browser session. *)
Lemma C4_witness :
  let value := demo.Marshal (demo.authorized "abc") in
  fst (updateSessionValue "gplus" value demo.empty_world) = None
  /\ fst (getSessionValue "gplus" (snd (updateSessionValue "gplus" value demo.empty_world)))
     = Ok value.
Proof.
  intros value. split; [reflexivity|].
  apply (C4_session_value_round_trip stored_lossless "gplus" value demo.empty_world).
  reflexivity.
Defined.

(** C5 at work: an email off the list, and the empty email. *)
Lemma C5_witness :
  let w := demo.signed_in "" in
  ("mallory@example.com" ∉ (Email <$> UserList demo.staff))
  /\ scs.GetString (session w) "email" = Ok ""
  /\ getAccessByEmail demo.staff "mallory@example.com" = NoneAccess
  /\ GetAccess demo.staff (demo.request "gplus" "") (demo.signed_in "mallory@example.com")
     = NoneAccess
  /\ GetAccess demo.staff (demo.request "gplus" "") w = NoneAccess.
Proof.
  intros w.
  assert (Hnot : "mallory@example.com" ∉ (Email <$> UserList demo.staff)).
  { apply (bool_decide_unpack _). vm_compute. exact I. }
  destruct (C5_unknown_or_empty_email_is_NoneAccess demo.staff "mallory@example.com"
              (demo.request "gplus" "") (demo.signed_in "mallory@example.com"))
    as (Hscan & Hget & _).
  destruct (C5_unknown_or_empty_email_is_NoneAccess demo.staff ""
              (demo.request "gplus" "") w) as (_ & _ & Hempty).
  split; [exact Hnot|]. split; [reflexivity|].
  split; [exact (Hscan Hnot)|]. split; [exact (Hget Hnot eq_refl)|].
  exact (Hempty eq_refl).
Defined.

(** C6 at work: the duplicate email has the level of its first entry. *)
Lemma C6_witness :
  let el := {| Access := AdminAccess; Email := "guest@example.com" |} in
  el ∈ UserList demo.staff
  /\ getAccessByEmail demo.staff "guest@example.com" = NoneAccess
  /\ exists l1 first l2,
       UserList demo.staff = l1 ++ first :: l2
       /\ (Email el ∉ (Email <$> l1))
       /\ Email first = Email el
       /\ getAccessByEmail demo.staff (Email el) = Access first.
Proof.
  intros el.
  assert (Hin : el ∈ UserList demo.staff).
  { do 2 apply list_elem_of_further. apply list_elem_of_here. }
  split; [exact Hin|]. split; [reflexivity|].
  exact (C6_first_match_wins demo.staff el Hin).
Defined.

(** C8 at work: the session cannot be loaded, the redirect is issued. *)
Lemma C8_witness :
  let req := demo.request "gplus" "" in
  let w' := snd (logoutRoute demo.staff req demo.unreachable_world) in
  fst (logout req demo.unreachable_world) = Some "Could not delete user session "
  /\ http.status (resp demo.unreachable_world) = None
  /\ http.status (resp w') = Some 307
  /\ http.Header (resp w') !! "Location" = Some ["/"]
  /\ http.body (resp w') = "".
Proof.
  intros req w'. split; [reflexivity|]. split; [reflexivity|].
  exact (C8_logout_route_always_redirects demo.staff req demo.unreachable_world eq_refl).
Defined.

(** C9, refuted as stated: a begin-auth error (here the provider of the
    route is not registered) is answered with status 400 and the error
    text as the body, and nothing is logged. *)
Lemma C9_begin_auth_error_has_a_body :
  let w' := snd (beginAuthHandler (demo.request "github" "") demo.empty_world) in
  fst (getAuthURL (demo.request "github" "") demo.empty_world)
  = Err "no provider for github exists"
  /\ http.status (resp w') = Some 400
  /\ http.body (resp w') = "no provider for github exists" +:+ LF
  /\ logs w' = [].
Proof. repeat split; reflexivity. Qed.

(** C9 at work: a forged callback, and a login for an unknown provider. *)
Lemma C9_witness :
  let forged := demo.request "gplus" "state=abd" in
  let unknown := demo.request "github" "" in
  fst (completeUserAuth forged demo.completed_world) = Err "state token mismatch"
  /\ fst (getAuthURL unknown demo.empty_world) = Err "no provider for github exists"
  /\ http.body (resp (snd (callbackRoute demo.staff forged demo.completed_world))) = ""
  /\ http.status (resp (snd (callbackRoute demo.staff forged demo.completed_world)))
     = None
  /\ logs (snd (callbackRoute demo.staff forged demo.completed_world))
     = ["Can't complete user's authentication, state token mismatch"]
  /\ http.body (resp (snd (beginAuthHandler unknown demo.empty_world)))
     = "no provider for github exists" +:+ LF.
Proof.
  intros forged unknown.
  destruct (C9_flow_errors_by_route demo.staff forged demo.completed_world
              "state token mismatch") as [Hcallback _].
  destruct (C9_flow_errors_by_route demo.staff unknown demo.empty_world
              "no provider for github exists") as [_ Hbegin].
  specialize (Hcallback eq_refl). specialize (Hbegin eq_refl).
  destruct Hcallback as (Hnobody & Hnostatus & Hlogs).
  destruct Hbegin as (_ & Hbody & _).
  split; [reflexivity|]. split; [reflexivity|]. split; [exact Hnobody|].
  split; [exact Hnostatus|]. split; [exact Hlogs | exact Hbody].
Defined.

(** C10 at work: a pending session completed by the code of the callback. *)
Lemma C10_witness :
  let req := demo.request "gplus" "state=abc&code=xyz" in
  let run := completeUserAuth req demo.pending_world in
  validateState req (demo.pending "abc") = None
  /\ goth.FetchUser demo.gplus (demo.pending "abc")
     = Err "gplus cannot get user information without accessToken"
  /\ fst run = Ok {| goth.Email := "admin@example.com"; goth.UserID := "token-xyz" |}
  /\ calls (snd run)
     = [CallGetProvider "gplus"; CallGetBytes "gplus";
        CallUnmarshalSession (demo.Marshal (demo.pending "abc"));
        CallFetchUser;
        CallAuthorize (demo.ParseQuery "state=abc&code=xyz");
        CallPutBytes "gplus"
          (demo.gz ("token-xyz|" +:+ demo.AuthURL (demo.pending "abc")));
        CallFetchUser; CallRemove "gplus"]
  /\ session (snd (completeUserAuth_body req demo.pending_world))
     = fst (scs.PutBytes (session demo.pending_world) "gplus"
              (demo.gz ("token-xyz|" +:+ demo.AuthURL (demo.pending "abc"))))
  /\ scs.data (session (snd (completeUserAuth_body req demo.pending_world))) !! "gplus"
     = Some (scs.VBytes
               (demo.gz ("token-xyz|" +:+ demo.AuthURL (demo.pending "abc")))).
Proof.
  intros req run. split; [reflexivity|]. split; [reflexivity|].
  exact (C10_one_refresh_one_retry req demo.pending_world "gplus"
           (demo.Marshal (demo.pending "abc")) demo.gplus (demo.pending "abc")
           eq_refl eq_refl eq_refl eq_refl
           "gplus cannot get user information without accessToken"
           eq_refl eq_refl).
Defined.

(** * Further properties of the code *)

(** ** The state token *)

Lemma list_ind3 {A} (P : list A -> Prop) :
  P [] -> (forall a, P [a]) -> (forall a b, P [a; b]) ->
  (forall a b c rest, P rest -> P (a :: b :: c :: rest)) ->
  forall l, P l.
Proof.
  intros H0 H1 H2 H3 l.
  assert (H : P l /\ (forall a, P (a :: l)) /\ (forall a b, P (a :: b :: l))).
  { induction l as [|x l (IH0 & IH1 & IH2)]; [by auto|].
    split; [apply IH1|]. split; [intros a; apply IH2|].
    intros a b. by apply H3. }
  apply H.
Qed.

(** Every unit of three bytes, the last one padded, gives four characters. *)
Lemma EncodeToString_length (src : list byte) :
  String.length (base64.EncodeToString src) = (4 * ((length src + 2) / 3))%nat.
Proof.
  induction src as [|a|a b|a b c rest IH] using list_ind3; try reflexivity.
  cbn [base64.EncodeToString String.length length]. rewrite IH.
  replace (S (S (S (length rest))) + 2)%nat with (1 * 3 + (length rest + 2))%nat by lia.
  rewrite Nat.div_add_l by lia. lia.
Qed.

Lemma enc_url_safe (v : Z) : url_safe (base64.enc v) = true.
Proof.
  unfold base64.enc.
  assert (Hn : (Z.to_nat (Z.land v 63) < 64)%nat).
  { change 63 with (Z.ones 6). rewrite Z.land_ones by lia.
    pose proof (Z.mod_pos_bound v (2 ^ 6) eq_refl). lia. }
  revert Hn. generalize (Z.to_nat (Z.land v 63)). intros n Hn.
  do 64 (destruct n as [|n]; [reflexivity|]). lia.
Qed.

Lemma EncodeToString_url_safe (src : list byte) :
  all_chars url_safe (base64.EncodeToString src) = true.
Proof.
  induction src as [|a|a b|a b c rest IH] using list_ind3;
    cbn [base64.EncodeToString all_chars]; rewrite ?enc_url_safe, ?IH; reflexivity.
Qed.

Section state_token.

Context {Sess : Type} {goth_session : goth.Session Sess}
  {codec : gzip.Codec} {linked : Linked Sess}.

Implicit Types (req : http.Request) (w : World).

(** The bytes drawn depend on the random source alone, and drawing moves
    nothing but its position. *)
Lemma nonceBytes_draws (n : nat) w :
  snd (nonceBytes n w)
  = {| session := session w; resp := resp w; logs := logs w;
       rand_src := rand_src w; rand_pos := (n + rand_pos w)%nat; calls := calls w |}.
Proof.
  revert w. induction n as [|n IH]; intros w; [by destruct w|].
  change (snd (nonceBytes (S n) w)) with (snd (nonceBytes n (draw w))).
  rewrite IH. simpl. f_equal. lia.
Qed.

(** X1: [setState] hands back a non-empty state of the request as it is,
    without touching the random source or anything else; without one it
    draws exactly 64 values and answers 88 characters, all of them
    letters, digits, [-], [_] or the padding [=], and changes nothing but
    the position of the random source. *)
Theorem X1_setState_echo_or_nonce req w :
  (getState req <> "" -> setState req w = (getState req, w))
  /\ (getState req = "" ->
      String.length (fst (setState req w)) = 88%nat
      /\ all_chars url_safe (fst (setState req w)) = true
      /\ snd (setState req w)
         = {| session := session w; resp := resp w; logs := logs w;
              rand_src := rand_src w; rand_pos := (64 + rand_pos w)%nat;
              calls := calls w |}).
Proof.
  unfold getState, setState. split; intros Hst.
  - destruct (url.Get _ "state"); [congruence | reflexivity].
  - rewrite Hst. change (0 <? String.length "")%nat with false. cbv beta iota.
    pose proof (nonceBytes_length 64) as Hlen.
    pose proof (nonceBytes_draws 64) as Hdraw.
    revert Hlen Hdraw. generalize (nonceBytes 64). intros m Hlen Hdraw.
    unfold bind, ret. cbn [fst snd].
    rewrite EncodeToString_length, Hlen, EncodeToString_url_safe, Hdraw.
    repeat split; reflexivity.
Qed.

End state_token.

(** X1 at work: a request with a state, and one without. *)
Lemma X1_witness :
  setState (demo.request "gplus" "state=abc") demo.empty_world = ("abc", demo.empty_world)
  /\ String.length (fst (setState (demo.request "gplus" "") demo.empty_world)) = 88%nat
  /\ rand_pos (snd (setState (demo.request "gplus" "") demo.empty_world)) = 64%nat.
Proof.
  destruct (X1_setState_echo_or_nonce (demo.request "gplus" "state=abc") demo.empty_world)
    as [Hecho _].
  destruct (X1_setState_echo_or_nonce (demo.request "gplus" "") demo.empty_world)
    as [_ Hnonce].
  split; [apply Hecho; vm_compute; discriminate|].
  destruct (Hnonce eq_refl) as (Hlen & _ & Hw).
  split; [exact Hlen|]. rewrite Hw. reflexivity.
Defined.

(** ** Beginning a flow *)

Section begin_auth.

Context {Sess : Type} {goth_session : goth.Session Sess}
  {codec : gzip.Codec} {linked : Linked Sess}.

Implicit Types (req : http.Request) (w : World) (t : Provider).

Ltac fields :=
  cbn [fst snd session resp logs calls rand_src rand_pos
       add_call add_log set_session set_resp draw].

Lemma nonceBytes_source (n : nat) w1 w2 :
  rand_src w1 = rand_src w2 -> rand_pos w1 = rand_pos w2 ->
  fst (nonceBytes n w1) = fst (nonceBytes n w2).
Proof.
  revert w1 w2. induction n as [|n IH]; intros w1 w2 Hs Hp; [reflexivity|].
  change (fst (nonceBytes (S n) w1))
    with (byte_of_Z (Z.rem (rand_src w1 (rand_pos w1) mod 2 ^ 63) 256)
          :: fst (nonceBytes n (draw w1))).
  change (fst (nonceBytes (S n) w2))
    with (byte_of_Z (Z.rem (rand_src w2 (rand_pos w2) mod 2 ^ 63) 256)
          :: fst (nonceBytes n (draw w2))).
  rewrite Hs, Hp. f_equal. apply IH; simpl; congruence.
Qed.

(** The trace plays no part in the state [setState] answers. *)
Lemma setState_add_call req (c : Call) w :
  fst (setState req (add_call c w)) = fst (setState req w).
Proof.
  unfold setState. destruct (0 <? _)%nat; [reflexivity|].
  pose proof (nonceBytes_source 64 (add_call c w) w eq_refl eq_refl) as Hsrc.
  revert Hsrc. generalize (nonceBytes 64). intros m Hsrc.
  unfold bind, ret. cbn [fst snd]. by rewrite Hsrc.
Qed.

(** [setState] leaves the session, the response, the log and the trace
    alone. *)
Lemma setState_run req w :
  session (snd (setState req w)) = session w
  /\ resp (snd (setState req w)) = resp w
  /\ logs (snd (setState req w)) = logs w
  /\ calls (snd (setState req w)) = calls w.
Proof.
  unfold setState. destruct (0 <? _)%nat; [done|].
  pose proof (nonceBytes_frame 64) as Hframe.
  revert Hframe. generalize (nonceBytes 64). intros m Hframe.
  unfold bind, ret. cbn [fst snd].
  destruct (Hframe w) as (-> & -> & -> & ->). done.
Qed.

(** A write that reported no error put the value under the key. *)
Lemma PutBytes_ok (s : scs.Session) (key : string) (val : list byte) :
  snd (scs.PutBytes s key val) = None ->
  scs.data (fst (scs.PutBytes s key val)) = <[key := scs.VBytes val]> (scs.data s)
  /\ scs.loadErr (fst (scs.PutBytes s key val)) = None
  /\ scs.loadErr s = None.
Proof.
  unfold scs.PutBytes, scs.put.
  destruct (scs.loadErr s) eqn:Hl; [discriminate|].
  destruct (scs.writeErr s); [discriminate|]. simpl. by rewrite Hl.
Qed.

(** All there is to know of a successful [getAuthURL]. *)
Lemma getAuthURL_success req w (url : string) :
  fst (getAuthURL req w) = Ok url ->
  exists name provider sess,
    getProviderName req = Ok name
    /\ providers !! name = Some provider
    /\ goth.BeginAuth provider (fst (setState req w)) = Ok sess
    /\ goth.GetAuthURL sess = Ok url
    /\ calls (snd (getAuthURL req w))
       = calls w ++ [CallGetProvider name; CallBeginAuth (fst (setState req w));
                     CallPutBytes name (compressed (goth.Marshal sess))]
    /\ session (snd (getAuthURL req w))
       = session (snd (updateSessionValue name (goth.Marshal sess) w))
    /\ fst (updateSessionValue name (goth.Marshal sess) w) = None.
Proof.
  unfold getAuthURL, goth_GetProvider, provider_BeginAuth, storeInSession,
    goth.GetProvider, trace, modify, bind, ret.
  cbn [fst snd].
  destruct (getProviderName req) as [name|e0]; cbn [fst snd]; [|discriminate].
  destruct (providers !! name) as [provider|] eqn:Hp; cbn [fst snd]; [|discriminate].
  rewrite setState_add_call.
  destruct (setState_run req (add_call (CallGetProvider name) w)) as (Hs & _ & _ & Hc).
  destruct (goth.BeginAuth provider _) as [sess|e1] eqn:Hb; cbn [fst snd]; [|discriminate].
  destruct (goth.GetAuthURL sess) as [u|e2] eqn:Hu; cbn [fst snd]; [|discriminate].
  destruct (updateSessionValue _ _ _) as [[e3|] w2] eqn:Hst; cbn [fst snd]; [discriminate|].
  intros [= ->]. exists name, provider, sess.
  set (w1 := add_call _ (snd (setState req _))) in Hst.
  assert (Hsame : session w = session w1) by (subst w1; fields; by rewrite Hs).
  assert (Hok : fst (updateSessionValue name (goth.Marshal sess) w) = None).
  { rewrite (updateSessionValue_same_session _ _ w w1 Hsame). by rewrite Hst. }
  destruct (updateSessionValue_ok _ _ _ (f_equal fst Hst)) as [Hw2 _].
  destruct (updateSessionValue_ok _ _ _ Hok) as [Hw3 _].
  rewrite Hst in Hw2. cbn [snd] in Hw2. subst w2. rewrite Hw3.
  subst w1. fields. rewrite Hs, Hc. fields. repeat split; try done.
  by rewrite <- !app_assoc.
Qed.

(** X2: whatever the outcome, [getAuthURL] calls [BeginAuth] at most
    once, and the state it hands to the provider is never empty: it is
    the one [setState] answers for the request. *)
Theorem X2_getAuthURL_state_never_empty req w :
  exists tr,
    calls (snd (getAuthURL req w)) = calls w ++ tr
    /\ (filter is_BeginAuth tr = []
        \/ filter is_BeginAuth tr = [CallBeginAuth (fst (setState req w))])
    /\ fst (setState req w) <> "".
Proof.
  unfold getAuthURL, goth_GetProvider, provider_BeginAuth, storeInSession,
    trace, modify, bind, ret.
  cbn [fst snd].
  destruct (getProviderName req) as [name|e0]; cbn [fst snd].
  2:{ exists []. rewrite app_nil_r. split; [done|]. split; [by left | apply setState_nonempty]. }
  destruct (goth.GetProvider providers name) as [provider|e1]; cbn [fst snd].
  2:{ exists [CallGetProvider name]. split; [done|]. split; [by left | apply setState_nonempty]. }
  rewrite setState_add_call.
  destruct (setState_run req (add_call (CallGetProvider name) w)) as (_ & _ & _ & Hc).
  destruct (goth.BeginAuth provider _) as [sess|e2]; cbn [fst snd].
  2:{ eexists. fields. rewrite Hc. fields. rewrite <- app_assoc.
      split; [reflexivity|]. split; [by right | apply setState_nonempty]. }
  destruct (goth.GetAuthURL sess) as [u|e3]; cbn [fst snd].
  2:{ eexists. fields. rewrite Hc. fields. rewrite <- app_assoc.
      split; [reflexivity|]. split; [by right | apply setState_nonempty]. }
  destruct (updateSessionValue _ _ _) as [[e4|] w2] eqn:Hst; cbn [fst snd].
  - destruct (updateSessionValue_failed _ _ _ e4 (f_equal fst Hst)) as [_ [Hc2|Hc2]];
      rewrite Hst in Hc2; cbn [snd] in Hc2; rewrite Hc2; fields; rewrite Hc; fields;
      eexists; rewrite <- ?app_assoc; (split; [reflexivity|]);
      (split; [by right | apply setState_nonempty]).
  - destruct (updateSessionValue_ok _ _ _ (f_equal fst Hst)) as [Hw2 _].
    rewrite Hst in Hw2. cbn [snd] in Hw2. subst w2. fields. rewrite Hc. fields.
    eexists. rewrite <- ?app_assoc. split; [reflexivity|].
    split; [by right | apply setState_nonempty].
Qed.

(** What was stored without error loads again, in whatever world holds
    that session. *)
Lemma updateSessionValue_loads (lossless : gzip.Lossless codec)
    (key value : string) w w' :
  fst (updateSessionValue key value w) = None ->
  session w' = session (snd (updateSessionValue key value w)) ->
  fst (getSessionValue key w') = Ok value.
Proof.
  intros Hok Hs. destruct (updateSessionValue_ok key value w Hok) as [Hw Hput].
  rewrite Hw in Hs. cbn [session add_call set_session] in Hs.
  destruct (PutBytes_ok _ _ _ Hput) as (Hdata & Hload & _).
  revert Hok. unfold updateSessionValue, getSessionValue, session_GetBytes, bind, ret.
  unfold compressed in *.
  destruct (gzip.Write _ _) as [w1 [e|]] eqn:Hw1; [discriminate|].
  destruct (gzip.Flush _) as [w2 [e|]] eqn:Hw2; [discriminate|].
  destruct (gzip.Close _) as [w3 [e|]] eqn:Hw3; [discriminate|].
  intros _. cbn [fst snd] in *.
  destruct (lossless _ _ _ _ Hw1 Hw2 Hw3) as (r & Hnew & Hread).
  unfold scs.GetBytes. rewrite Hs, Hload, Hdata, lookup_insert_eq.
  rewrite list_byte_of_string_of_list_byte, Hnew, Hread.
  by rewrite string_of_list_byte_of_string.
Qed.

Lemma getFromSession_loads (key value : string) req w :
  fst (getSessionValue key w) = Ok value ->
  fst (getFromSession key req w) = Ok value.
Proof.
  intros Hv. unfold getFromSession, bind. cbn [fst snd]. by rewrite Hv.
Qed.

(** X3: the session [getAuthURL] stored is the one a later request
    loads: once [getAuthURL] answered a URL, [getFromSession] under the
    provider's name returns the marshalled session that [BeginAuth] made
    for the state of the request, and the URL answered is that session's. *)
Theorem X3_begun_session_loads_back (lossless : gzip.Lossless codec)
    req (req' : http.Request) w (url : string) :
  fst (getAuthURL req w) = Ok url ->
  exists name provider sess,
    getProviderName req = Ok name
    /\ providers !! name = Some provider
    /\ goth.BeginAuth provider (fst (setState req w)) = Ok sess
    /\ goth.GetAuthURL sess = Ok url
    /\ fst (getFromSession name req' (snd (getAuthURL req w))) = Ok (goth.Marshal sess).
Proof.
  intros Hok.
  destruct (getAuthURL_success req w url Hok)
    as (name & provider & sess & Hn & Hp & Hb & Hu & _ & Hs & Hst).
  exists name, provider, sess. repeat split; try assumption.
  apply getFromSession_loads.
  by apply (updateSessionValue_loads lossless name (goth.Marshal sess) w).
Qed.

(** X4: a [getAuthURL] that fails, at whatever step, leaves the session
    as it found it. *)
Theorem X4_failed_getAuthURL_keeps_session req w (err : error) :
  fst (getAuthURL req w) = Err err ->
  session (snd (getAuthURL req w)) = session w.
Proof.
  unfold getAuthURL, goth_GetProvider, provider_BeginAuth, storeInSession,
    trace, modify, bind, ret.
  cbn [fst snd].
  destruct (getProviderName req) as [name|e0]; cbn [fst snd]; [|done].
  destruct (goth.GetProvider providers name) as [provider|e1]; cbn [fst snd]; [|done].
  destruct (setState_run req (add_call (CallGetProvider name) w)) as (Hs & _).
  cbn [session add_call] in Hs.
  destruct (goth.BeginAuth provider _) as [sess|e2]; cbn [fst snd]; [|intros _; fields; exact Hs].
  destruct (goth.GetAuthURL sess) as [u|e3]; cbn [fst snd]; [|intros _; fields; exact Hs].
  destruct (updateSessionValue _ _ _) as [[e4|] w2] eqn:Hst; cbn [fst snd]; [|discriminate].
  intros _.
  destruct (updateSessionValue_failed _ _ _ e4 (f_equal fst Hst)) as [Hkeep _].
  rewrite Hst in Hkeep. cbn [snd] in Hkeep. rewrite Hkeep. fields. exact Hs.
Qed.

End begin_auth.

(** ** Logging out, and what a flow leaves of the session *)

Section session_keys.

Context {Sess : Type} {goth_session : goth.Session Sess}
  {codec : gzip.Codec} {linked : Linked Sess}.

Implicit Types (req : http.Request) (w : World) (t : Provider)
  (s : scs.Session) (key : string).

Ltac fields :=
  cbn [fst snd session resp logs calls rand_src rand_pos
       add_call add_log set_session set_resp draw].

Lemma Remove_other s (k key : string) :
  key <> k -> scs.data (fst (scs.Remove s k)) !! key = scs.data s !! key.
Proof.
  intros Hne. unfold scs.Remove. destruct (scs.loadErr s); [reflexivity|].
  destruct (scs.data s !! k); [|reflexivity].
  destruct (scs.writeErr s); [reflexivity|]. simpl. by apply lookup_delete_ne.
Qed.

Lemma Remove_health s (k : string) :
  scs.loadErr (fst (scs.Remove s k)) = scs.loadErr s
  /\ scs.writeErr (fst (scs.Remove s k)) = scs.writeErr s.
Proof.
  unfold scs.Remove. destruct (scs.loadErr s) eqn:Hl; [done|].
  destruct (scs.data s !! k); [|done]. by destruct (scs.writeErr s) eqn:Hw.
Qed.

Lemma PutBytes_other s (k key : string) (val : list byte) :
  key <> k -> scs.data (fst (scs.PutBytes s k val)) !! key = scs.data s !! key.
Proof.
  intros Hne. unfold scs.PutBytes, scs.put. destruct (scs.loadErr s); [reflexivity|].
  destruct (scs.writeErr s); [reflexivity|]. simpl. by apply lookup_insert_ne.
Qed.

(** The email of the session is read from its entry [email] and from
    nothing else. *)
Lemma GetString_same s1 s2 (key : string) :
  scs.loadErr s1 = scs.loadErr s2 ->
  scs.data s1 !! key = scs.data s2 !! key ->
  scs.GetString s1 key = scs.GetString s2 key.
Proof. intros Hl Hd. unfold scs.GetString. by rewrite Hl, Hd. Qed.

Lemma logout_session req w :
  session (snd (logout req w))
  = match getProviderName req with
    | Ok name => fst (scs.Remove (session w) name)
    | Err _ => session w
    end.
Proof. rewrite logout_run. by destruct (getProviderName req). Qed.

(** X5: [logout] removes at most the entry that carries the name of the
    provider of the route: every other entry of the session is as it was;
    it writes no status line and no body, and logs nothing. *)
Theorem X5_logout_touches_one_entry req w key :
  getProviderName req <> Ok key ->
  scs.data (session (snd (logout req w))) !! key = scs.data (session w) !! key
  /\ http.status (resp (snd (logout req w))) = http.status (resp w)
  /\ http.body (resp (snd (logout req w))) = http.body (resp w)
  /\ logs (snd (logout req w)) = logs w.
Proof.
  intros Hne. rewrite logout_resp, logout_logs, logout_session.
  split; [|done]. destruct (getProviderName req) as [name|]; [|done].
  apply Remove_other. congruence.
Qed.

(** A removal that reports an error leaves the session as it was: after
    a [completeUserAuth] whose deferred [logout] failed, the session is
    the one its body left, the entry of the provider included. *)
Lemma Remove_failed s (k : string) (err : error) :
  snd (scs.Remove s k) = Some err -> fst (scs.Remove s k) = s.
Proof.
  unfold scs.Remove. destruct (scs.loadErr s); [done|].
  destruct (scs.data s !! k); [|discriminate].
  by destruct (scs.writeErr s).
Qed.

Lemma completeUserAuth_failed_removal req w (err : error) :
  fst (logout req (snd (completeUserAuth_body req w))) = Some err ->
  session (snd (completeUserAuth req w))
  = session (snd (completeUserAuth_body req w)).
Proof.
  rewrite completeUserAuth_run. cbn [snd]. rewrite logout_session, logout_run.
  destruct (getProviderName req) as [name|]; [|done]. cbn [fst].
  destruct (snd (scs.Remove _ name)) as [e|] eqn:Hrm; [|discriminate].
  intros _. by apply (Remove_failed _ _ e).
Qed.

(** X6: the logout route leaves the access level of the browser session
    as it was: it removes the entry of the provider, not the [email] entry
    [GetAccess] reads (the provider of the route not being called
    [email]). *)
Theorem X6_logout_route_keeps_access t req (r : http.Request)
    (types : list AccessType) w :
  chi.URLParam req "provider" <> "email" ->
  let w' := snd (logoutRoute t req w) in
  GetAccess t r w' = GetAccess t r w
  /\ CheckAccess t r types w' = CheckAccess t r types w.
Proof.
  intros Hne w'.
  assert (Hget : scs.GetString (session w') "email" = scs.GetString (session w) "email").
  { subst w'. unfold logoutRoute, redirect, modify_resp, modify, bind. fields.
    rewrite logout_session. unfold getProviderName.
    case_bool_decide; [|done].
    apply GetString_same; [apply Remove_health | apply Remove_other; congruence]. }
  unfold CheckAccess, GetAccess. by rewrite Hget.
Qed.

(** The body of [completeUserAuth] changes at most the entry of the
    provider. *)
Lemma completeUserAuth_body_other req w key :
  getProviderName req <> Ok key ->
  scs.data (session (snd (completeUserAuth_body req w))) !! key
  = scs.data (session w) !! key.
Proof.
  intros Hne.
  unfold completeUserAuth_body, getFromSession, getSessionValue, storeInSession,
    updateSessionValue, goth_GetProvider, provider_UnmarshalSession,
    provider_FetchUser, sess_Authorize, session_GetBytes, session_PutBytes,
    trace, log_Print, modify, bind, ret.
  simpl. destruct (getProviderName req) as [name|]; [|done].
  repeat (case_match; simpl; try reflexivity);
    apply PutBytes_other; congruence.
Qed.

(** X7: [completeUserAuth], however it ends, changes no entry of the
    session but the one that carries the name of the provider of the
    route. *)
Theorem X7_completeUserAuth_touches_one_entry req w key :
  getProviderName req <> Ok key ->
  scs.data (session (snd (completeUserAuth req w))) !! key
  = scs.data (session w) !! key.
Proof.
  intros Hne. rewrite completeUserAuth_run. cbn [snd].
  rewrite logout_session. rewrite <- (completeUserAuth_body_other req w key Hne).
  destruct (getProviderName req) as [name|]; [|done].
  apply Remove_other. congruence.
Qed.

(** X8: a request without the route parameter [provider] is refused by
    each entry point of the flow before anything happens: no call is
    made, nothing is stored, removed, logged or written. *)
Theorem X8_no_provider_nothing_happens req w :
  chi.URLParam req "provider" = "" ->
  completeUserAuth req w = (Err "you must select a provider", w)
  /\ getAuthURL req w = (Err "you must select a provider", w)
  /\ logout req w = (Some "Can't detect provider", w).
Proof.
  intros Hnone.
  assert (Hname : getProviderName req = Err "you must select a provider").
  { unfold getProviderName. rewrite Hnone. reflexivity. }
  split; [|split].
  - rewrite completeUserAuth_run, logout_run.
    unfold completeUserAuth_body, bind, ret. cbn [fst snd]. by rewrite Hname.
  - unfold getAuthURL, bind, ret. cbn [fst snd]. by rewrite Hname.
  - by rewrite logout_run, Hname.
Qed.


End session_keys.

(** ** The callback on a stored session *)

Section callback.

Context {Sess : Type} {goth_session : goth.Session Sess}
  {codec : gzip.Codec} {linked : Linked Sess}.

Implicit Types (t : Provider).

Ltac fields :=
  cbn [fst snd session resp logs calls rand_src rand_pos
       add_call add_log set_session set_resp draw].

Ltac norm_calls :=
  unfold loaded; simpl; rewrite <- ?app_assoc; simpl; try reflexivity.

Section stored.

(** A request that names a registered provider, for which the session
    holds a blob that loads and unmarshals to [sess]. *)
Variables (req : http.Request) (w : World) (name value : string)
  (provider : goth.Provider Sess) (sess : Sess).
Hypothesis Hname : getProviderName req = Ok name.
Hypothesis Hprovider : providers !! name = Some provider.
Hypothesis Hload : fst (getFromSession name req w) = Ok value.
Hypothesis Hunmarshal : goth.UnmarshalSession provider value = Ok sess.

Ltac to_validation :=
  unfold completeUserAuth_body, goth_GetProvider, provider_UnmarshalSession,
    goth.GetProvider, trace, modify, bind, ret;
  cbn [fst snd]; rewrite Hname; cbn [fst snd]; rewrite Hprovider; cbn [fst snd];
  rewrite (getFromSession_ok _ _ _ _ Hload); cbn [fst snd];
  rewrite Hunmarshal; cbn [fst snd].

(** X9: when the stored session still fetches the profile,
    [completeUserAuth] returns that user at once: no token is exchanged
    and nothing is stored; the only change to the session is the removal
    of the entry of the provider, made last. *)
Theorem X9_valid_session_completes_silently (user : goth.User) :
  validateState req sess = None ->
  goth.FetchUser provider sess = Ok user ->
  fst (completeUserAuth req w) = Ok user
  /\ calls (snd (completeUserAuth req w))
     = calls w ++ [CallGetProvider name; CallGetBytes name;
                   CallUnmarshalSession value; CallFetchUser; CallRemove name]
  /\ session (snd (completeUserAuth req w)) = fst (scs.Remove (session w) name).
Proof.
  intros Hv Hfetch. rewrite completeUserAuth_run. cbn [fst snd].
  rewrite logout_run, Hname. cbn [fst snd].
  to_validation. rewrite Hv. unfold provider_FetchUser, trace, modify, bind, ret.
  cbn [fst snd]. rewrite Hfetch. cbn [fst snd].
  split; [reflexivity|]. split; [norm_calls | reflexivity].
Qed.

(** X19: an error of [validateState], be it the session without an
    authorization URL, a URL that does not parse or a state that differs,
    is the result of [completeUserAuth]: the profile is not fetched, no
    token is exchanged, and the entry of the provider is removed all the
    same. *)
Theorem X19_invalid_state_stops_the_callback (err : error) :
  validateState req sess = Some err ->
  (goth.GetAuthURL sess = Err err
   \/ (exists raw, goth.GetAuthURL sess = Ok raw /\ url_Parse raw = Err err)
   \/ err = "state token mismatch")
  /\ fst (completeUserAuth req w) = Err err
  /\ calls (snd (completeUserAuth req w))
     = calls w ++ [CallGetProvider name; CallGetBytes name;
                   CallUnmarshalSession value; CallRemove name]
  /\ session (snd (completeUserAuth req w)) = fst (scs.Remove (session w) name).
Proof.
  intros Hv. split.
  - revert Hv. unfold validateState.
    destruct (goth.GetAuthURL sess) as [raw|e0]; [|intros [= ->]; by left].
    destruct (url_Parse raw) as [u|e1] eqn:Hparse.
    + destruct (_ && _); [intros [= <-]; by right; right | discriminate].
    + intros [= ->]. right; left. by exists raw.
  - rewrite completeUserAuth_run, (body_state_mismatch _ _ _ _ _ _ Hname Hprovider Hload Hunmarshal _ Hv).
    cbn [fst snd]. rewrite logout_run, Hname. cbn [fst snd].
    split; [reflexivity|]. split; [norm_calls | reflexivity].
Qed.

(** X20: a stored authorization URL that carries no state, or an empty
    one, switches the comparison off: [validateState] accepts the
    callback whatever its [state] parameter, and [completeUserAuth] goes
    on to fetch the profile. *)
Theorem X20_no_stored_state_no_check (rawAuthURL : string) (authURL : url.URL) :
  goth.GetAuthURL sess = Ok rawAuthURL ->
  url_Parse rawAuthURL = Ok authURL ->
  url.Get (url.Query authURL) "state" = "" ->
  validateState req sess = None
  /\ exists rest,
       calls (snd (completeUserAuth req w))
       = calls w ++ [CallGetProvider name; CallGetBytes name;
                     CallUnmarshalSession value; CallFetchUser] ++ rest.
Proof.
  intros Hraw Hparse Hstate.
  assert (Hv : validateState req sess = None).
  { unfold validateState. by rewrite Hraw, Hparse, Hstate. }
  split; [exact Hv|].
  destruct (body_state_accepted _ _ _ _ _ _ Hname Hprovider Hload Hunmarshal Hv)
    as (rest & Hcalls).
  rewrite completeUserAuth_run. cbn [snd]. rewrite logout_run, Hname. simpl.
  rewrite Hcalls. eexists. norm_calls.
Qed.

End stored.

End callback.

(** ** A browser session without an entry for the provider *)

Section no_entry.

Context {Sess : Type} {goth_session : goth.Session Sess}
  {codec : gzip.Codec} {linked : Linked Sess}.

Implicit Types (req : http.Request) (w : World) (t : Provider)
  (s : scs.Session) (key : string).

Ltac fields :=
  cbn [fst snd session resp logs calls rand_src rand_pos
       add_call add_log set_session set_resp draw].

(** compress/gzip refuses the empty stream ([io.EOF]): what the
    properties of this section ask of the codec. *)
Hypothesis Hempty : exists eof, gzip.NewReader [] = Err eof.

(** With no entry under the name of the provider, the flow stops at the
    load. *)
Lemma completeUserAuth_without_entry req w (name : string)
    (provider : goth.Provider Sess) :
  getProviderName req = Ok name ->
  providers !! name = Some provider ->
  scs.loadErr (session w) = None ->
  scs.data (session w) !! name = None ->
  fst (completeUserAuth req w)
  = Err "could not find a matching session for this request"
  /\ calls (snd (completeUserAuth req w))
     = calls w ++ [CallGetProvider name; CallGetBytes name; CallRemove name]
  /\ session (snd (completeUserAuth req w)) = session w.
Proof.
  intros Hname Hp Hl Hd. destruct Hempty as [eof Heof].
  rewrite completeUserAuth_run. cbn [fst snd]. rewrite logout_run, Hname. cbn [fst snd].
  unfold completeUserAuth_body, getFromSession, getSessionValue, goth_GetProvider,
    goth.GetProvider, session_GetBytes, trace, log_Print, modify, bind, ret.
  cbn [fst snd]. rewrite Hname. cbn [fst snd]. rewrite Hp. cbn [fst snd].
  unfold scs.GetBytes. fields. rewrite Hl, Hd. cbn [fst snd].
  change (list_byte_of_string (string_of_list_byte [])) with (@nil byte).
  rewrite Heof. cbn [fst snd]. fields.
  split; [reflexivity|]. split; [by rewrite <- !app_assoc|].
  unfold scs.Remove. rewrite Hl, Hd. by destruct w.
Qed.

Lemma completeUserAuth_health req w :
  scs.loadErr (session (snd (completeUserAuth req w))) = scs.loadErr (session w)
  /\ scs.writeErr (session (snd (completeUserAuth req w))) = scs.writeErr (session w).
Proof.
  rewrite completeUserAuth_run. cbn [snd].
  destruct (completeUserAuth_body_health req w) as [Hl Hw].
  rewrite logout_run. destruct (getProviderName req) as [name|]; cbn [snd]; [|done].
  fields. destruct (Remove_health (session (snd (completeUserAuth_body req w))) name)
    as [-> ->]. done.
Qed.

(** X11: [completeUserAuth] can succeed only once per stored session.
    With a session store that is up, whatever a first call returned, the
    user included, a second call for the same provider finds no session:
    it fails with "could not find a matching session for this request". *)
Theorem X11_completeUserAuth_is_one_shot req (req' : http.Request) w
    (name : string) (provider : goth.Provider Sess) :
  getProviderName req = Ok name ->
  getProviderName req' = Ok name ->
  providers !! name = Some provider ->
  scs.loadErr (session w) = None ->
  scs.writeErr (session w) = None ->
  fst (completeUserAuth req' (snd (completeUserAuth req w)))
  = Err "could not find a matching session for this request".
Proof.
  intros Hname Hname' Hp Hl Hw.
  apply (completeUserAuth_without_entry req' _ name provider Hname' Hp).
  - destruct (completeUserAuth_health req w) as [-> _]. exact Hl.
  - by apply completeUserAuth_clears_healthy_session.
Qed.


End no_entry.

(** ** The session adapter, entry by entry *)

Section adapter.

Context {Sess : Type} {goth_session : goth.Session Sess}
  {codec : gzip.Codec} {linked : Linked Sess}.

Implicit Types (req : http.Request) (w : World) (t : Provider)
  (s : scs.Session) (key : string).

Ltac fields :=
  cbn [fst snd session resp logs calls rand_src rand_pos
       add_call add_log set_session set_resp draw].

(** What [getSessionValue] answers is read off the load error and the
    entry under the key. *)
Lemma getSessionValue_same key w1 w2 :
  scs.loadErr (session w1) = scs.loadErr (session w2) ->
  scs.data (session w1) !! key = scs.data (session w2) !! key ->
  fst (getSessionValue key w1) = fst (getSessionValue key w2).
Proof.
  intros Hl Hd. unfold getSessionValue, session_GetBytes, bind, ret. cbn [fst snd].
  unfold scs.GetBytes. rewrite Hl, Hd. repeat case_match; reflexivity.
Qed.

Lemma updateSessionValue_health (key value : string) w :
  scs.loadErr (session (snd (updateSessionValue key value w))) = scs.loadErr (session w).
Proof.
  unfold updateSessionValue, session_PutBytes, ret.
  destruct (gzip.Write _ _) as [g1 [e|]]; [reflexivity|].
  destruct (gzip.Flush _) as [g2 [e|]]; [reflexivity|].
  destruct (gzip.Close _) as [g3 [e|]]; [reflexivity|].
  fields. unfold scs.PutBytes, scs.put.
  destruct (scs.loadErr (session w)) eqn:Hl; [done|].
  by destruct (scs.writeErr (session w)).
Qed.

Lemma updateSessionValue_other (key key' value : string) w :
  key' <> key ->
  scs.data (session (snd (updateSessionValue key value w))) !! key'
  = scs.data (session w) !! key'.
Proof.
  intros Hne. unfold updateSessionValue, session_PutBytes, ret.
  destruct (gzip.Write _ _) as [g1 [e|]]; [reflexivity|].
  destruct (gzip.Flush _) as [g2 [e|]]; [reflexivity|].
  destruct (gzip.Close _) as [g3 [e|]]; [reflexivity|].
  fields. by apply PutBytes_other.
Qed.

(** X12: storing a value under one key, with or without success, leaves
    what loads under every other key as it was; and a store that reports
    an error leaves what loads under its own key as it was, too. *)
Theorem X12_store_leaves_the_rest (key key' value : string) w :
  (key' <> key ->
   fst (getSessionValue key' (snd (updateSessionValue key value w)))
   = fst (getSessionValue key' w))
  /\ (forall err, fst (updateSessionValue key value w) = Some err ->
      fst (getSessionValue key' (snd (updateSessionValue key value w)))
      = fst (getSessionValue key' w)).
Proof.
  split.
  - intros Hne. apply getSessionValue_same;
      [apply updateSessionValue_health | by apply updateSessionValue_other].
  - intros err Herr.
    destruct (updateSessionValue_failed key value w err Herr) as [Hs _].
    apply getSessionValue_same; by rewrite Hs.
Qed.

(** X13: after a [logout] that reported no error the entry of the
    provider reads as an absent one: the adapter gets [nil] from the
    session, and [getSessionValue] answers what it answers for a session
    that never held the entry. *)
Theorem X13_logged_out_entry_is_absent req w (name : string) :
  getProviderName req = Ok name ->
  fst (logout req w) = None ->
  scs.GetBytes (session (snd (logout req w))) name = Ok []
  /\ fst (getSessionValue name (snd (logout req w)))
     = match gzip.NewReader [] with
       | Err err => Err err
       | Ok r =>
           match gzip.ReadAll r with
           | Err err => Err err
           | Ok out => Ok (string_of_list_byte out)
           end
       end.
Proof.
  intros Hname Hok. rewrite logout_run, Hname in *. cbn [fst snd] in *.
  destruct (snd (scs.Remove (session w) name)) eqn:Hrm; [discriminate|].
  assert (Hget : scs.GetBytes (fst (scs.Remove (session w) name)) name = Ok []).
  { unfold scs.GetBytes. rewrite (Remove_ok _ _ Hrm).
    destruct (Remove_health (session w) name) as [-> _].
    revert Hrm. unfold scs.Remove. by destruct (scs.loadErr (session w)). }
  fields. split; [exact Hget|].
  unfold getSessionValue, session_GetBytes, bind, ret. cbn [fst snd]. fields.
  rewrite Hget.
  change (list_byte_of_string (string_of_list_byte [])) with (@nil byte).
  destruct (gzip.NewReader []) as [r|]; [|reflexivity].
  by destruct (gzip.ReadAll r).
Qed.

End adapter.

(** ** Signing in, and the guard *)

Section policy_more.

Implicit Types (t : Provider) (el : UserInfo) (email : string).

(** X14: [UnmarshalYAML] grants [AdminAccess] to the access name [admin]
    and to no other: any other name, [Admin] and the empty name included,
    gives [NoneAccess]; the email is taken over as it is, and an error of
    the decoder is handed on. *)
Theorem X14_UnmarshalYAML_admin_only (temp_Email temp_Access : string) (err : error) :
  UnmarshalYAML (Ok (temp_Email, temp_Access))
  = Ok {| Access := if bool_decide (temp_Access = "admin") then AdminAccess else NoneAccess;
          Email := temp_Email |}
  /\ UnmarshalYAML (Err err) = Err err.
Proof.
  split; [|reflexivity]. unfold UnmarshalYAML, codes.
  case_bool_decide as Hname.
  - subst. by rewrite lookup_singleton_eq.
  - rewrite lookup_singleton_ne by congruence. reflexivity.
Qed.

Lemma getAccessByEmail_loop_listed (l : list UserInfo) email :
  getAccessByEmail_loop l email <> NoneAccess ->
  {| Access := getAccessByEmail_loop l email; Email := email |} ∈ l.
Proof.
  induction l as [|el l IH]; simpl; [congruence|].
  case_bool_decide as Heq; intros Hlevel.
  - destruct el as [a e]. simpl in *. subst. apply list_elem_of_here.
  - apply list_elem_of_further. by apply IH.
Qed.

(** X15: no access level but [NoneAccess] is ever given to an email that
    is not configured with it: a level [getAccessByEmail] returns is the
    level of an entry of the list with that very email, and a level
    [GetAccess] returns is that of an entry whose email is the non-empty
    [email] entry of a session that could be read. *)
Theorem X15_access_only_as_configured t email (req : http.Request) (w : World) :
  (getAccessByEmail t email <> NoneAccess ->
   {| Access := getAccessByEmail t email; Email := email |} ∈ UserList t)
  /\ (GetAccess t req w <> NoneAccess ->
      exists stored,
        stored <> ""
        /\ scs.loadErr (session w) = None
        /\ scs.data (session w) !! "email" = Some (scs.VString stored)
        /\ {| Access := GetAccess t req w; Email := stored |} ∈ UserList t).
Proof.
  split; [apply getAccessByEmail_loop_listed|].
  unfold GetAccess, scs.GetString.
  destruct (scs.loadErr (session w)); [congruence|].
  destruct (scs.data (session w) !! "email") as [[b|stored]|].
  - congruence.
  - case_bool_decide as Hempty; [congruence|]. intros Hlevel.
    exists stored. split; [exact Hempty|]. split; [reflexivity|]. split; [reflexivity|].
    by apply getAccessByEmail_loop_listed.
  - rewrite bool_decide_eq_true_2 by reflexivity. congruence.
Qed.

(** X16: a visitor whose session holds no [email] entry has level
    [NoneAccess]: [CheckAccess] lets the visitor pass exactly when
    [NoneAccess] is among the allowed levels, so never for the empty list
    of levels. *)
Theorem X16_anonymous_visitor t (req : http.Request) (types : list AccessType)
    (w : World) :
  scs.data (session w) !! "email" = None ->
  GetAccess t req w = NoneAccess
  /\ CheckAccess t req types w = bool_decide (NoneAccess ∈ types)
  /\ CheckAccess t req [] w = false.
Proof.
  intros Hnone.
  assert (Hlevel : GetAccess t req w = NoneAccess).
  { unfold GetAccess, scs.GetString. rewrite Hnone.
    by destruct (scs.loadErr (session w)). }
  unfold CheckAccess. rewrite Hlevel, CheckAccess_loop_elem_of. done.
Qed.

End policy_more.

Section sign_in.

Context {Sess : Type} {goth_session : goth.Session Sess}
  {codec : gzip.Codec} {linked : Linked Sess}.

Implicit Types (req : http.Request) (w : World) (t : Provider)
  (s : scs.Session) (email : string).

Ltac fields :=
  cbn [fst snd session resp logs calls rand_src rand_pos
       add_call add_log set_session set_resp draw].

Lemma redirect_run (url : string) w :
  snd (redirect url w)
  = set_resp (http.WriteHeader http.StatusTemporaryRedirect
                (http.Header_Set "Location" url (resp w))) w.
Proof. reflexivity. Qed.

Lemma PutString_ok s (key val : string) :
  snd (scs.PutString s key val) = None ->
  scs.data (fst (scs.PutString s key val)) = <[key := scs.VString val]> (scs.data s)
  /\ scs.loadErr (fst (scs.PutString s key val)) = None.
Proof.
  unfold scs.PutString, scs.put.
  destruct (scs.loadErr s) eqn:Hl; [discriminate|].
  destruct (scs.writeErr s); [discriminate|]. simpl. by rewrite Hl.
Qed.

Lemma PutString_failed s (key val : string) (err : error) :
  snd (scs.PutString s key val) = Some err -> fst (scs.PutString s key val) = s.
Proof.
  unfold scs.PutString, scs.put.
  destruct (scs.loadErr s) eqn:Hl; [done|].
  by destruct (scs.writeErr s).
Qed.

(** X17: [gateway] always answers with a redirect: to the success page
    when the email has a level other than [NoneAccess] and could be
    stored in the session, in which case the session holds it under
    [email]; to the denied page otherwise, the session being as it was.
    Nothing is stored, nor tried, for an email without a level. *)
Theorem X17_gateway_outcome t req email w :
  http.status (resp w) = None ->
  let w' := snd (gateway t req email w) in
  let stored := scs.PutString (session w) "email" email in
  http.status (resp w') = Some 307
  /\ http.body (resp w') = http.body (resp w)
  /\ if bool_decide (getAccessByEmail t email = NoneAccess)
     then http.Header (resp w') !! "Location" = Some [DeniedPage t]
          /\ session w' = session w /\ calls w' = calls w /\ logs w' = logs w
     else match snd stored with
          | None =>
              http.Header (resp w') !! "Location" = Some [SuccessPage t]
              /\ scs.data (session w') !! "email" = Some (scs.VString email)
              /\ logs w' = logs w
          | Some _ =>
              http.Header (resp w') !! "Location" = Some [DeniedPage t]
              /\ session w' = session w
              /\ logs w' = logs w ++ ["Can't save auth info into session"]
          end.
Proof.
  intros Hst w' stored. subst w' stored. unfold gateway.
  case_bool_decide as Hlevel.
  - rewrite redirect_fresh, redirect_body, redirect_Location by assumption.
    rewrite redirect_run. fields. done.
  - unfold session_PutString, log_Print, modify, bind. cbn [fst snd].
    destruct (snd (scs.PutString (session w) "email" email)) as [err|] eqn:Hput.
    + rewrite redirect_fresh, redirect_body, redirect_Location by (fields; assumption).
      rewrite redirect_run. fields.
      rewrite (PutString_failed _ _ _ _ Hput). done.
    + rewrite redirect_fresh, redirect_body, redirect_Location by (fields; assumption).
      rewrite redirect_run. fields.
      destruct (PutString_ok _ _ _ Hput) as [-> _]. by rewrite lookup_insert_eq.
Qed.

(** X18: once [gateway] has sent the browser to the success page, the
    access level of the session is the level of the email just signed
    in, so a guard for that level lets the next request through. The
    email must not be empty: [GetAccess] gives [NoneAccess] for the empty
    one. *)
Theorem X18_gateway_signs_in t req (r : http.Request) email w :
  email <> "" ->
  getAccessByEmail t email <> NoneAccess ->
  snd (scs.PutString (session w) "email" email) = None ->
  let w' := snd (gateway t req email w) in
  GetAccess t r w' = getAccessByEmail t email
  /\ CheckAccess t r [getAccessByEmail t email] w' = true.
Proof.
  intros Hemail Hlevel Hput w'.
  assert (Hget : GetAccess t r w' = getAccessByEmail t email).
  { subst w'. unfold gateway. rewrite bool_decide_eq_false_2 by assumption.
    unfold session_PutString, bind. cbn [fst snd]. rewrite Hput.
    rewrite redirect_run. unfold GetAccess, scs.GetString. fields.
    destruct (PutString_ok _ _ _ Hput) as [-> ->]. rewrite lookup_insert_eq.
    by rewrite bool_decide_eq_false_2. }
  split; [exact Hget|]. unfold CheckAccess. rewrite Hget. simpl.
  by rewrite bool_decide_eq_true_2.
Qed.

(** X21: the guard on a signed-in session: the downstream handler runs,
    on the world as it is, exactly when the level of the stored email is
    one of the allowed levels; otherwise the answer is the redirect to
    the denied page and the downstream handler has no part in it. *)
Theorem X21_guard_decides_by_stored_email t (types : list AccessType)
    (next : http.Request -> M unit) req w email :
  email <> "" ->
  scs.GetString (session w) "email" = Ok email ->
  GuardAccess t types next req w
  = if bool_decide (getAccessByEmail t email ∈ types) then next req w
    else (tt, set_resp (http_Redirect req (DeniedPage t)
                          http.StatusTemporaryRedirect (resp w)) w).
Proof.
  intros Hemail Hget. unfold GuardAccess, CheckAccess, GetAccess.
  rewrite Hget, bool_decide_eq_false_2 by assumption.
  rewrite CheckAccess_loop_elem_of. by case_bool_decide.
Qed.

Lemma gateway_granted t req email w :
  getAccessByEmail t email <> NoneAccess ->
  snd (scs.PutString (session w) "email" email) = None ->
  snd (gateway t req email w)
  = set_resp (http.WriteHeader http.StatusTemporaryRedirect
                (http.Header_Set "Location" (SuccessPage t) (resp w)))
      (add_call (CallPutString "email" email)
         (set_session (fst (scs.PutString (session w) "email" email)) w)).
Proof.
  intros Hlevel Hput. unfold gateway. rewrite bool_decide_eq_false_2 by assumption.
  unfold session_PutString, bind. cbn [fst snd]. rewrite Hput. reflexivity.
Qed.

(** X23: a callback that completes for a user whose email has a level
    signs the browser session in: with a session store that is up and the
    status line unwritten, the callback route answers the redirect to the
    success page, the session holds the email and gives it its level from
    then on, and the entry of the provider is gone. *)
Theorem X23_callback_signs_in t req (r : http.Request) w
    (user : goth.User) (name : string) :
  fst (completeUserAuth req w) = Ok user ->
  getProviderName req = Ok name ->
  name <> "email" ->
  goth.Email user <> "" ->
  getAccessByEmail t (goth.Email user) <> NoneAccess ->
  scs.loadErr (session w) = None ->
  scs.writeErr (session w) = None ->
  http.status (resp w) = None ->
  let w' := snd (callbackRoute t req w) in
  http.status (resp w') = Some 307
  /\ http.Header (resp w') !! "Location" = Some [SuccessPage t]
  /\ GetAccess t r w' = getAccessByEmail t (goth.Email user)
  /\ scs.data (session w') !! name = None
  /\ logs w' = logs w.
Proof.
  intros Hok Hname Hne Hemail Hlevel Hl Hw Hst w'. subst w'.
  unfold callbackRoute, bind. cbn [fst snd]. rewrite Hok.
  set (w1 := snd (completeUserAuth req w)).
  destruct (completeUserAuth_health req w) as [Hl1 Hw1]. fold w1 in Hl1, Hw1.
  assert (Hput : snd (scs.PutString (session w1) "email" (goth.Email user)) = None).
  { unfold scs.PutString, scs.put. by rewrite Hl1, Hw1, Hl, Hw. }
  rewrite (gateway_granted _ _ _ _ Hlevel Hput). fields.
  destruct (PutString_ok _ _ _ Hput) as [Hdata Hload].
  assert (Hresp : resp w1 = resp w) by apply completeUserAuth_resp.
  rewrite Hresp. unfold http.WriteHeader. simpl. rewrite Hst. simpl.
  split; [reflexivity|]. split; [apply lookup_insert_eq|]. split; [|split].
  - unfold GetAccess, scs.GetString. fields. rewrite Hload, Hdata, lookup_insert_eq.
    by rewrite bool_decide_eq_false_2.
  - rewrite Hdata, lookup_insert_ne by congruence.
    by apply completeUserAuth_clears_healthy_session.
  - subst w1. destruct (completeUserAuth_logs req w) as [Hlog|[e Hlog]]; [exact Hlog|].
    exfalso. revert Hok Hlog. rewrite completeUserAuth_run. cbn [fst snd].
    rewrite logout_logs.
    unfold completeUserAuth_body, getFromSession, getSessionValue, storeInSession,
      updateSessionValue, goth_GetProvider, provider_UnmarshalSession,
      provider_FetchUser, sess_Authorize, session_GetBytes, session_PutBytes,
      trace, log_Print, modify, bind, ret.
    simpl. repeat (case_match; simpl; try discriminate);
      intros _ Hlog; apply (f_equal length) in Hlog;
      rewrite ?length_app in Hlog; simpl in Hlog; lia.
Qed.

End sign_in.

(** ** The stand-alone variant, once more *)

(** X24: the logout route of [SetProvider] asks the hook where to go
    only after [logout] has run, drops what [logout] returned, and, the
    status line being unwritten by then, answers the redirect to the URL
    of the hook without a body of its own. *)
Theorem X24_SetProvider_logout_route {handler : login.Handler}
    (logout : http.Request -> string -> M (option error))
    (name : string) (req : http.Request) (w : World) :
  let hooked := login.Logout req (snd (logout req name w)) in
  http.status (resp (snd hooked)) = None ->
  let w' := snd (login.logoutRoute logout name req w) in
  http.status (resp w') = Some 307
  /\ http.Header (resp w') !! "Location" = Some [fst hooked]
  /\ http.body (resp w') = http.body (resp (snd hooked))
  /\ session w' = session (snd hooked)
  /\ logs w' = logs (snd hooked).
Proof.
  intros hooked Hst. unfold login.logoutRoute, login.redirect, modify_resp, modify, bind.
  cbn [fst snd]. fold hooked. simpl. unfold http.WriteHeader. simpl. rewrite Hst. simpl.
  split; [reflexivity|]. split; [apply lookup_insert_eq|]. done.
Qed.

(** ** The further properties at work *)

(** X3 at work: a login with the state [abc], then the load of the
    callback. *)
Lemma X3_witness :
  let req := demo.request "gplus" "state=abc" in
  let url := demo.AuthURL (demo.pending "abc") in
  fst (getAuthURL req demo.empty_world) = Ok url
  /\ exists name provider sess,
       getProviderName req = Ok name
       /\ providers !! name = Some provider
       /\ goth.BeginAuth provider (fst (setState req demo.empty_world)) = Ok sess
       /\ goth.GetAuthURL sess = Ok url
       /\ fst (getFromSession name (demo.request "gplus" "state=abc&code=xyz")
                 (snd (getAuthURL req demo.empty_world)))
          = Ok (goth.Marshal sess).
Proof.
  intros req url. split; [reflexivity|].
  exact (X3_begun_session_loads_back stored_lossless req
           (demo.request "gplus" "state=abc&code=xyz") demo.empty_world url eq_refl).
Defined.

(** X4 at work: a login for a provider that is not registered. *)
Lemma X4_witness :
  let req := demo.request "github" "" in
  fst (getAuthURL req demo.completed_world) = Err "no provider for github exists"
  /\ session (snd (getAuthURL req demo.completed_world)) = session demo.completed_world.
Proof.
  intros req. split; [reflexivity|].
  exact (X4_failed_getAuthURL_keeps_session req demo.completed_world
           "no provider for github exists" eq_refl).
Defined.

(** X5 at work: the [email] entry of a signed-in session survives the
    logout. *)
Lemma X5_witness :
  let req := demo.request "gplus" "" in
  let w' := snd (logout req fixtures.signed_in_world) in
  getProviderName req <> Ok "email"
  /\ scs.data (session w') !! "email" = Some (scs.VString "admin@example.com")
  /\ scs.data (session w') !! "gplus" = None.
Proof.
  intros req w'.
  assert (Hne : getProviderName req <> Ok "email") by (vm_compute; discriminate).
  pose proof (X5_logout_touches_one_entry req fixtures.signed_in_world "email" Hne) as HX.
  destruct HX as (Hkeep & _).
  split; [exact Hne|]. split; [|reflexivity].
  subst w'. rewrite Hkeep. reflexivity.
Defined.

(** X6 at work: an admin is still an admin after the logout route. *)
Lemma X6_witness :
  let req := demo.request "gplus" "" in
  let w' := snd (logoutRoute demo.staff req fixtures.signed_in_world) in
  chi.URLParam req "provider" <> "email"
  /\ GetAccess demo.staff req fixtures.signed_in_world = AdminAccess
  /\ GetAccess demo.staff req w' = AdminAccess
  /\ CheckAccess demo.staff req [AdminAccess] w' = true.
Proof.
  intros req w'.
  assert (Hne : chi.URLParam req "provider" <> "email") by (vm_compute; discriminate).
  pose proof (X6_logout_route_keeps_access demo.staff req req [AdminAccess]
              fixtures.signed_in_world Hne) as HX.
  destruct HX as [Hget Hcheck].
  split; [exact Hne|]. split; [reflexivity|].
  subst w'. rewrite Hget, Hcheck. split; reflexivity.
Defined.

(** X7 at work: a callback on a signed-in session keeps its [email]. *)
Lemma X7_witness :
  let req := demo.request "gplus" "state=abc" in
  getProviderName req <> Ok "email"
  /\ scs.data (session (snd (completeUserAuth req fixtures.signed_in_world))) !! "email"
     = Some (scs.VString "admin@example.com").
Proof.
  intros req.
  assert (Hne : getProviderName req <> Ok "email") by (vm_compute; discriminate).
  split; [exact Hne|].
  rewrite (X7_completeUserAuth_touches_one_entry req fixtures.signed_in_world "email" Hne).
  reflexivity.
Defined.

(** X8 at work: a request whose route parameter is empty. *)
Lemma X8_witness :
  let req := demo.request "" "state=abc" in
  chi.URLParam req "provider" = ""
  /\ completeUserAuth req demo.completed_world
     = (Err "you must select a provider", demo.completed_world)
  /\ logout req demo.completed_world
     = (Some "Can't detect provider", demo.completed_world).
Proof.
  intros req.
  pose proof (X8_no_provider_nothing_happens req demo.completed_world eq_refl) as HX.
  destruct HX as (Hc & _ & Hl).
  split; [reflexivity|]. split; assumption.
Defined.

(** X9 at work: the callback on a session that holds a token. *)
Lemma X9_witness :
  let req := demo.request "gplus" "state=abc" in
  let user := {| goth.Email := "admin@example.com"; goth.UserID := "token-4/P7q" |} in
  validateState req (demo.authorized "abc") = None
  /\ goth.FetchUser demo.gplus (demo.authorized "abc") = Ok user
  /\ fst (completeUserAuth req demo.completed_world) = Ok user
  /\ calls (snd (completeUserAuth req demo.completed_world))
     = [CallGetProvider "gplus"; CallGetBytes "gplus";
        CallUnmarshalSession (demo.Marshal (demo.authorized "abc"));
        CallFetchUser; CallRemove "gplus"].
Proof.
  intros req user.
  pose proof (X9_valid_session_completes_silently req demo.completed_world "gplus"
              (demo.Marshal (demo.authorized "abc")) demo.gplus (demo.authorized "abc")
              eq_refl eq_refl eq_refl eq_refl user eq_refl eq_refl) as HX.
  destruct HX as (Hr & Hc & _).
  split; [reflexivity|]. split; [reflexivity|]. split; assumption.
Defined.

(** X11 at work: the callback a second time. *)
Lemma X11_witness :
  let req := demo.request "gplus" "state=abc" in
  fst (completeUserAuth req demo.completed_world)
  = Ok {| goth.Email := "admin@example.com"; goth.UserID := "token-4/P7q" |}
  /\ fst (completeUserAuth req (snd (completeUserAuth req demo.completed_world)))
     = Err "could not find a matching session for this request".
Proof.
  intros req. split; [reflexivity|].
  assert (Heof : exists eof, gzip.NewReader [] = Err eof) by (by exists "EOF").
  exact (X11_completeUserAuth_is_one_shot Heof
           req req demo.completed_world "gplus" demo.gplus
           eq_refl eq_refl eq_refl eq_refl eq_refl).
Defined.

(** X13 at work: the entry of a completed flow, after the logout. *)
Lemma X13_witness :
  let req := demo.request "gplus" "" in
  fst (logout req demo.completed_world) = None
  /\ scs.GetBytes (session (snd (logout req demo.completed_world))) "gplus" = Ok []
  /\ fst (getSessionValue "gplus" (snd (logout req demo.completed_world))) = Err "EOF".
Proof.
  intros req.
  pose proof (X13_logged_out_entry_is_absent req demo.completed_world "gplus"
              eq_refl eq_refl) as HX.
  destruct HX as [Hnil Hload].
  split; [reflexivity|]. split; [exact Hnil | exact Hload].
Defined.

(** X16 at work: a browser session without [email]. *)
Lemma X16_witness :
  scs.data (session demo.completed_world) !! "email" = None
  /\ GetAccess demo.staff (demo.request "gplus" "") demo.completed_world = NoneAccess
  /\ CheckAccess demo.staff (demo.request "gplus" "") [AdminAccess] demo.completed_world
     = false.
Proof.
  pose proof (X16_anonymous_visitor demo.staff (demo.request "gplus" "") [AdminAccess]
              demo.completed_world eq_refl) as HX.
  destruct HX as (Hlevel & Hcheck & _).
  split; [reflexivity|]. split; [exact Hlevel|]. rewrite Hcheck. reflexivity.
Defined.

(** X17 at work: the gateway for an admin, on a session that takes the
    write. *)
Lemma X17_witness :
  let w' := snd (gateway demo.staff (demo.request "gplus" "") "admin@example.com"
                   demo.empty_world) in
  http.status (resp demo.empty_world) = None
  /\ http.status (resp w') = Some 307
  /\ http.Header (resp w') !! "Location" = Some ["/"]
  /\ scs.data (session w') !! "email" = Some (scs.VString "admin@example.com").
Proof.
  intros w'.
  pose proof (X17_gateway_outcome demo.staff (demo.request "gplus" "") "admin@example.com"
              demo.empty_world eq_refl) as HX.
  destruct HX as (Hst & _ & Hcase).
  split; [reflexivity|]. split; [exact Hst|].
  vm_compute in Hcase. destruct Hcase as (Hloc & Hemail & _).
  split; [exact Hloc | exact Hemail].
Defined.

(** X18 at work: the admin passes the guard after the gateway. *)
Lemma X18_witness :
  let req := demo.request "gplus" "" in
  let w' := snd (gateway demo.staff req "admin@example.com" demo.empty_world) in
  getAccessByEmail demo.staff "admin@example.com" = AdminAccess
  /\ GetAccess demo.staff req w' = AdminAccess
  /\ CheckAccess demo.staff req [AdminAccess] w' = true.
Proof.
  intros req w'.
  pose proof (X18_gateway_signs_in demo.staff req req "admin@example.com" demo.empty_world
              ltac:(discriminate) ltac:(vm_compute; discriminate) eq_refl) as HX.
  destruct HX as [Hget Hcheck].
  split; [reflexivity|]. split; [exact Hget | exact Hcheck].
Defined.

(** X19 at work: a callback with a forged state. *)
Lemma X19_witness :
  let req := demo.request "gplus" "state=abd" in
  validateState req (demo.authorized "abc") = Some "state token mismatch"
  /\ fst (completeUserAuth req demo.completed_world) = Err "state token mismatch"
  /\ calls (snd (completeUserAuth req demo.completed_world))
     = [CallGetProvider "gplus"; CallGetBytes "gplus";
        CallUnmarshalSession (demo.Marshal (demo.authorized "abc"));
        CallRemove "gplus"].
Proof.
  intros req.
  pose proof (X19_invalid_state_stops_the_callback req demo.completed_world "gplus"
              (demo.Marshal (demo.authorized "abc")) demo.gplus (demo.authorized "abc")
              eq_refl eq_refl eq_refl eq_refl "state token mismatch" eq_refl) as HX.
  destruct HX as (_ & Hr & Hc & _).
  split; [reflexivity|]. split; assumption.
Defined.

(** X20 at work: a stored URL without state takes any callback. *)
Lemma X20_witness :
  let req := demo.request "gplus" "state=anything" in
  url.Get (demo.ParseQuery "client_id=key") "state" = ""
  /\ validateState req fixtures.stateless = None
  /\ fst (completeUserAuth req fixtures.stateless_world)
     = Ok {| goth.Email := "admin@example.com"; goth.UserID := "token-4/P7q" |}.
Proof.
  intros req.
  pose proof (X20_no_stored_state_no_check req fixtures.stateless_world "gplus"
              (demo.Marshal fixtures.stateless) demo.gplus fixtures.stateless
              eq_refl eq_refl eq_refl eq_refl
              (demo.AuthURL fixtures.stateless)
              {| url.Raw := demo.AuthURL fixtures.stateless;
                 url.Query := demo.ParseQuery "client_id=key" |}
              eq_refl eq_refl eq_refl) as HX.
  destruct HX as [Hv _].
  split; [reflexivity|]. split; [exact Hv | reflexivity].
Defined.

(** X21 at work: the guard for admins, on an admin and on a guest. *)
Lemma X21_witness :
  let req := demo.request "gplus" "" in
  scs.GetString (session (demo.signed_in "admin@example.com")) "email"
  = Ok "admin@example.com"
  /\ GuardAccess demo.staff [AdminAccess] fixtures.page req
       (demo.signed_in "admin@example.com")
     = fixtures.page req (demo.signed_in "admin@example.com")
  /\ resp (snd (GuardAccess demo.staff [AdminAccess] fixtures.page req
                  (demo.signed_in "guest@example.com")))
     = demo.Redirect req "/auth-denied" 307 http.fresh.
Proof.
  intros req.
  pose proof (X21_guard_decides_by_stored_email demo.staff [AdminAccess] fixtures.page
                req (demo.signed_in "admin@example.com") "admin@example.com"
                ltac:(discriminate) eq_refl) as Hadmin.
  pose proof (X21_guard_decides_by_stored_email demo.staff [AdminAccess] fixtures.page
                req (demo.signed_in "guest@example.com") "guest@example.com"
                ltac:(discriminate) eq_refl) as Hguest.
  split; [reflexivity|]. split; [exact Hadmin|]. rewrite Hguest. reflexivity.
Defined.


(** X23 at work: the callback of an admin. *)
Lemma X23_witness :
  let req := demo.request "gplus" "state=abc" in
  let w' := snd (callbackRoute demo.staff req demo.completed_world) in
  fst (completeUserAuth req demo.completed_world)
  = Ok {| goth.Email := "admin@example.com"; goth.UserID := "token-4/P7q" |}
  /\ http.status (resp w') = Some 307
  /\ http.Header (resp w') !! "Location" = Some ["/"]
  /\ GetAccess demo.staff req w' = AdminAccess
  /\ scs.data (session w') !! "gplus" = None.
Proof.
  intros req w'.
  pose proof (X23_callback_signs_in demo.staff req req demo.completed_world
              {| goth.Email := "admin@example.com"; goth.UserID := "token-4/P7q" |}
              "gplus" eq_refl eq_refl ltac:(discriminate) ltac:(discriminate)
              ltac:(vm_compute; discriminate) eq_refl eq_refl eq_refl) as HX.
  destruct HX as (Hst & Hloc & Hget & Hgone & _).
  split; [reflexivity|]. split; [exact Hst|]. split; [exact Hloc|].
  split; [exact Hget | exact Hgone].
Defined.

(** X24 at work: the logout route of an application with hooks. *)
Lemma X24_witness :
  let w' := snd (@login.logoutRoute fixtures.hooks (fun _ name => session_Remove name)
                   "gplus" (demo.request "gplus" "") demo.unreachable_world) in
  http.status (resp w') = Some 307
  /\ http.Header (resp w') !! "Location" = Some ["/goodbye"].
Proof.
  intros w'.
  pose proof (@X24_SetProvider_logout_route fixtures.hooks
              (fun _ name => session_Remove name) "gplus" (demo.request "gplus" "")
              demo.unreachable_world eq_refl) as HX.
  destruct HX as (Hst & Hloc & _).
  split; [exact Hst | exact Hloc].
Defined.
